(** * process_timing.hpp: a stopwatch and its duration renderer

    Shallow embedding of [timings::ProcessTiming] and of the type-level
    ratio comparisons of the header, together with the part of
    [std::ratio] / [std::chrono] the header relies on.

    Conventions of the embedding.
    - Template arguments are ordinary arguments: a tick period is a value
      of type [ratio], a [std::chrono::duration<Rep,Period>] is its count
      (an integer) with the period passed alongside.
    - [Rep] is the 64-bit signed integer type ([intmax_t], the
      representation of [std::chrono::nanoseconds] and the default of
      [elapsed] and [to_string]).  Run-time signed overflow is undefined
      behaviour in C++ and is modelled by [None].
    - The type-level arithmetic of the standard library ([std::ratio],
      [std::ratio_divide], [std::ratio_equal]) is exact or rejected by its
      static assertions: it computes in [Z], and [duration_cast_ok] and
      [convertible] say which instantiations exist.
    - The header's own [ratio_less] multiplies two [intmax_t] constants
      directly.  The product wraps around when it leaves [intmax_t];
      [ratio_less_ok] says that neither product does. *)

From Stdlib Require Import ZArith Znumtheory Bool List String Ascii Lia.
From Stdlib Require Import DecimalString.
Import ListNotations.

Local Open Scope Z_scope.

(** ** Machine integers *)

Definition intmax_min : Z := - 2 ^ 63.
Definition intmax_max : Z := 2 ^ 63 - 1.

Definition representable (z : Z) : bool :=
  (intmax_min <=? z) && (z <=? intmax_max).

(** An [intmax_t] product of constants whose exact value is [z]: reduced
    modulo [2^64] into the signed range. *)
Definition wrap (z : Z) : Z :=
  (z + 2 ^ 63) mod 2 ^ 64 - 2 ^ 63.

(** Result of a signed 64-bit operation whose exact value is [z]. *)
Definition checked (z : Z) : option Z :=
  if representable z then Some z else None.

Definition bind {A B : Type} (x : option A) (f : A -> option B) : option B :=
  match x with
  | Some a => f a
  | None => None
  end.

Notation "x <- e ;; k" := (bind e (fun x => k))
  (at level 61, e at next level, right associativity).

(** ** std::ratio *)

(** [std::ratio<N, D>]: the two template arguments. *)
Record ratio : Type := mkRatio { rN : Z; rD : Z }.

(** [ratio<N,D>::num = sign(N) * sign(D) * abs(N) / gcd(N, D)] *)
Definition num (r : ratio) : Z :=
  Z.sgn (rN r) * Z.sgn (rD r) * (Z.abs (rN r) / Z.gcd (rN r) (rD r)).

(** [ratio<N,D>::den = abs(D) / gcd(N, D)] *)
Definition den (r : ratio) : Z :=
  Z.abs (rD r) / Z.gcd (rN r) (rD r).

(** [std::ratio_divide<R1, R2>]: the ratio [R1::num * R2::den / (R1::den * R2::num)]. *)
Definition ratio_divide (r1 r2 : ratio) : ratio :=
  mkRatio (num r1 * den r2) (den r1 * num r2).

(** A tick period accepted by [std::chrono::duration]. *)
Definition period_ok (p : ratio) : bool :=
  negb (rD p =? 0) && representable (rN p) && representable (rD p) && (0 <? num p).

Module timings.

(** [std::ratio_equal<R1, R2>], which the header re-exports. *)
Definition ratio_equal (r1 r2 : ratio) : bool :=
  (num r1 =? num r2) && (den r1 =? den r2).

(** [std::ratio_not_equal<R1, R2>], which the header re-exports. *)
Definition ratio_not_equal (r1 r2 : ratio) : bool :=
  negb (ratio_equal r1 r2).

Definition ratio_less (r1 r2 : ratio) : bool :=
  wrap (num r1 * den r2) <? wrap (num r2 * den r1).

Definition ratio_less_equal (r1 r2 : ratio) : bool :=
  negb (ratio_less r2 r1).

Definition ratio_greater (r1 r2 : ratio) : bool :=
  ratio_less r2 r1.

Definition ratio_greater_equal (r1 r2 : ratio) : bool :=
  negb (ratio_less r1 r2).

(** Neither product of [ratio_less<R1, R2>] leaves [intmax_t]: the
    comparison is the one of the exact products. *)
Definition ratio_less_ok (r1 r2 : ratio) : bool :=
  representable (num r1 * den r2) && representable (num r2 * den r1).

End timings.

Import timings.

(** ** std::chrono durations *)

(** The periods of the seven units; [days] is declared by the header, the
    others are the standard ones. *)
Definition days_period : ratio := mkRatio 86400 1.
Definition hours_period : ratio := mkRatio 3600 1.
Definition minutes_period : ratio := mkRatio 60 1.
Definition seconds_period : ratio := mkRatio 1 1.
Definition milli : ratio := mkRatio 1 1000.
Definition micro : ratio := mkRatio 1 1000000.
Definition nano : ratio := mkRatio 1 1000000000.

(** [std::chrono::duration_cast<duration<intmax_t, To>>(duration<intmax_t, From>(c)).count()]:
    with [CF = ratio_divide<From, To>] the count is [c * CF::num / CF::den],
    computed in [intmax_t]; [/] truncates toward zero. *)
Definition duration_cast (From To : ratio) (c : Z) : option Z :=
  let CF := ratio_divide From To in
  n <- checked (c * num CF) ;;
  Some (Z.quot n (den CF)).

(** [duration_cast] from [From] to [To] can be instantiated: the conversion
    factor is a representable ratio. *)
Definition duration_cast_ok (From To : ratio) : bool :=
  let CF := ratio_divide From To in
  representable (num CF) && representable (den CF).

(** The converting constructor [duration<intmax_t, To>(duration<intmax_t, From>)]
    takes part in overload resolution only if the conversion is exact. *)
Definition convertible (From To : ratio) : bool :=
  duration_cast_ok From To && (den (ratio_divide From To) =? 1).

(** [lhs -= rhs] where [lhs] has period [P] and [rhs] has period [U]: [rhs]
    is converted to period [P], then the counts are subtracted. *)
Definition minus_assign (P U : ratio) (lhs rhs : Z) : option Z :=
  r <- duration_cast U P rhs ;;
  checked (lhs - r).

(** ** TimeElements *)

Record TimeElements : Type := mkTimeElements {
  d : Z;
  h : Z;
  m : Z;
  s : Z;
  ms : Z;
  us : Z;
  ns : Z
}.

(** ** Stream output *)

(** [stream << n] for an integer [n], default flags. *)
Definition decimal (n : Z) : string :=
  NilZero.string_of_int (Z.to_int n).

Fixpoint fill (k : nat) (c : ascii) : string :=
  match k with
  | O => EmptyString
  | S k' => String c (fill k' c)
  end.

(** [stream << std::setw(width) << std::setfill('0') << n]: the text of [n],
    preceded by fill characters when it is shorter than [width]. *)
Definition put (width : nat) (n : Z) : string :=
  (fill (width - String.length (decimal n)) "0" ++ decimal n)%string.

(** ** ProcessTiming: the static member functions *)

Module ProcessTiming.

Definition SplitTimeElements (Period : ratio) (duration : Z) : option TimeElements :=
  te_d <- duration_cast Period days_period duration ;;
  duration <- minus_assign Period days_period duration te_d ;;
  te_h <- duration_cast Period hours_period duration ;;
  duration <- minus_assign Period hours_period duration te_h ;;
  te_m <- duration_cast Period minutes_period duration ;;
  duration <- minus_assign Period minutes_period duration te_m ;;
  te_s <- duration_cast Period seconds_period duration ;;
  duration <- minus_assign Period seconds_period duration te_s ;;
  te_ms <- duration_cast Period milli duration ;;
  duration <- minus_assign Period milli duration te_ms ;;
  te_us <- duration_cast Period micro duration ;;
  duration <- minus_assign Period micro duration te_us ;;
  te_ns <- duration_cast Period nano duration ;;
  Some (mkTimeElements te_d te_h te_m te_s te_ms te_us te_ns).

(** [SplitTimeElements<intmax_t, Period>] compiles: every cast exists and
    every [-=] finds its converting constructor. *)
Definition SplitTimeElements_ok (Period : ratio) : bool :=
  period_ok Period
  && forallb (fun U => duration_cast_ok Period U && convertible U Period)
       [days_period; hours_period; minutes_period; seconds_period; milli; micro]
  && duration_cast_ok Period nano.

Definition TimeElementsToString (Period : ratio) (timeElements : TimeElements) : string :=
  let stream := EmptyString in
  let activate := false in
  let activate := if d timeElements >? 0 then true else activate in
  let stream :=
    if ratio_less_equal Period days_period && activate
    then (stream ++ decimal (d timeElements) ++ "d.")%string else stream in
  let activate := if h timeElements >? 0 then true else activate in
  let stream :=
    if ratio_less_equal Period hours_period && activate
    then (stream ++ put 2 (h timeElements) ++ "h.")%string else stream in
  let activate := if m timeElements >? 0 then true else activate in
  let stream :=
    if ratio_less_equal Period minutes_period && activate
    then (stream ++ put 2 (m timeElements) ++ "m.")%string else stream in
  let activate := if s timeElements >? 0 then true else activate in
  let stream :=
    if ratio_less_equal Period seconds_period && activate
    then (stream ++ put 2 (s timeElements) ++ "s.")%string else stream in
  let activate := if ms timeElements >? 0 then true else activate in
  let stream :=
    if ratio_less_equal Period milli && activate
    then (stream ++ put 3 (ms timeElements) ++ "ms.")%string else stream in
  let activate := if us timeElements >? 0 then true else activate in
  let stream :=
    if ratio_less_equal Period micro && activate
    then (stream ++ put 3 (us timeElements) ++ "us.")%string else stream in
  let activate := if ns timeElements >? 0 then true else activate in
  let stream :=
    if ratio_less_equal Period nano && activate
    then (stream ++ put 3 (ns timeElements) ++ "ns.")%string else stream in
  stream.

(** None of the seven comparisons [ratio_less_equal<Period, U>], that is
    [!ratio_less<U, Period>], overflows. *)
Definition TimeElementsToString_ok (Period : ratio) : bool :=
  forallb (fun U => ratio_less_ok U Period)
    [days_period; hours_period; minutes_period; seconds_period; milli; micro; nano].

Definition TimeToString (Period : ratio) (duration : Z) : option string :=
  timeElements <- SplitTimeElements Period duration ;;
  Some (TimeElementsToString Period timeElements).

Definition TimeToString_ok (Period : ratio) : bool :=
  SplitTimeElements_ok Period && TimeElementsToString_ok Period.

End ProcessTiming.

(** ** The renderer, unit by unit

    The seven blocks of [TimeElementsToString] differ only in the unit's
    period, field width, label and count.  Reading them as one step
    applied to seven rows gives names to what the claims speak about: the
    value of [activate] at each print test, and the text each unit
    contributes. *)

Record unit_row : Type := mkRow {
  u_period : ratio;
  u_width : nat;
  u_label : string;
  u_count : Z
}.

Definition rows (te : TimeElements) : list unit_row :=
  [ mkRow days_period 0 "d." (d te);
    mkRow hours_period 2 "h." (h te);
    mkRow minutes_period 2 "m." (m te);
    mkRow seconds_period 2 "s." (s te);
    mkRow milli 3 "ms." (ms te);
    mkRow micro 3 "us." (us te);
    mkRow nano 3 "ns." (ns te) ].

(** One block: the activation test, then the print test. *)
Definition block (Period : ratio) (st : bool * string) (u : unit_row) : bool * string :=
  let activate := if u_count u >? 0 then true else fst st in
  let stream :=
    if ratio_less_equal Period (u_period u) && activate
    then (snd st ++ put (u_width u) (u_count u) ++ u_label u)%string else snd st in
  (activate, stream).

Definition blocks (Period : ratio) (l : list unit_row) : bool * string :=
  fold_left (block Period) l (false, EmptyString).

(** Value of [activate] when the print test of unit [k] (0 = days, ..., 6 =
    nanoseconds) is evaluated. *)
Definition activate_at (Period : ratio) (te : TimeElements) (k : nat) : bool :=
  fst (blocks Period (firstn (S k) (rows te))).

(** The unit is a candidate for printing under the origin period: the
    test the code makes. *)
Definition candidate (Period : ratio) (u : unit_row) : bool :=
  ratio_less_equal Period (u_period u).

(** [P <= U] as rational numbers, on the reduced terms of the two periods. *)
Definition period_le (P U : ratio) : Prop :=
  num P * den U <= num U * den P.

(** What the block of unit [u] sends to the stream when it prints. *)
Definition unit_text (u : unit_row) : string :=
  (put (u_width u) (u_count u) ++ u_label u)%string.

(** Unit [k] is printed: its block appends [unit_text] to the stream. *)
Definition printed (Period : ratio) (te : TimeElements) (k : nat) : bool :=
  match nth_error (rows te) k with
  | Some u => candidate Period u && activate_at Period te k
  | None => false
  end.

(** The part of the output that comes from unit [k]. *)
Definition piece (Period : ratio) (te : TimeElements) (k : nat) : string :=
  match nth_error (rows te) k with
  | Some u => if printed Period te k then unit_text u else EmptyString
  | None => EmptyString
  end.

(** ** Reassembly, as the specification words it *)

(** Sum of the seven fields, each multiplied by its unit's length in
    nanoseconds. *)
Definition reassemble_ns (te : TimeElements) : Z :=
  d te * 86400000000000 + h te * 3600000000000 + m te * 60000000000
  + s te * 1000000000 + ms te * 1000000 + us te * 1000 + ns te.

(** [c] ticks of period [From], expressed in ticks of period [To] and
    rounded toward zero: the exact value of [c * From / To], truncated. *)
Definition truncate_to (From To : ratio) (c : Z) : Z :=
  Z.quot (c * (num From * den To)) (den From * num To).

(** A duration of [c] ticks of period [P], truncated to whole nanoseconds. *)
Definition truncate_to_ns (P : ratio) (c : Z) : Z :=
  truncate_to P nano c.

(** The bounds the specification gives for decomposed elements. *)
Definition in_bounds (te : TimeElements) : Prop :=
  0 <= d te /\ 0 <= h te < 24 /\ 0 <= m te < 60 /\ 0 <= s te < 60
  /\ 0 <= ms te < 1000 /\ 0 <= us te < 1000 /\ 0 <= ns te < 1000.

(** ** The decomposition in closed form

    For a period of [1 / (1000000 * k)] seconds: what is left of [c] ticks
    after the days, the hours, ..., the microseconds were taken out. *)
Definition rest1 (k c : Z) : Z := c mod (86400000000 * k).
Definition rest2 (k c : Z) : Z := rest1 k c mod (3600000000 * k).
Definition rest3 (k c : Z) : Z := rest2 k c mod (60000000 * k).
Definition rest4 (k c : Z) : Z := rest3 k c mod (1000000 * k).
Definition rest5 (k c : Z) : Z := rest4 k c mod (1000 * k).
Definition rest6 (k c : Z) : Z := rest5 k c mod k.

Definition split_closed_form (k c : Z) : TimeElements :=
  mkTimeElements
    (c / (86400000000 * k)) (rest1 k c / (3600000000 * k))
    (rest2 k c / (60000000 * k)) (rest3 k c / (1000000 * k))
    (rest4 k c / (1000 * k)) (rest5 k c / k) (rest6 k c * 1000 / k).

(** ** ProcessTiming: the stopwatch *)

Record ProcessTiming : Type := mkProcessTiming {
  _ongoing : bool;
  _startTime : Z;
  _endTime : Z
}.

Section Stopwatch.

(** [std::chrono::steady_clock]: its tick period, and the readings its
    successive calls of [now()] return.  The world is the number of
    readings taken so far. *)
Variable steady_clock_period : ratio.
Variable clk : nat -> Z.

Definition now (w : nat) : Z * nat := (clk w, S w).

Definition start (self : ProcessTiming) (w : nat) : ProcessTiming * nat :=
  let (t, w) := now w in
  (mkProcessTiming true t t, w).

(** The constructor calls [start()]; the fields hold nothing before. *)
Definition construct (w : nat) : ProcessTiming * nat :=
  start (mkProcessTiming false 0 0) w.

Definition stop (self : ProcessTiming) (w : nat) : ProcessTiming * nat :=
  let (t, w) := now w in
  (mkProcessTiming false (_startTime self) t, w).

Definition getStartTime (self : ProcessTiming) (w : nat) : Z * nat :=
  (_startTime self, w).

Definition getEndTime (self : ProcessTiming) (w : nat) : Z * nat :=
  let endTime := _endTime self in
  if _ongoing self then now w else (endTime, w).

Definition isRunning (self : ProcessTiming) (w : nat) : bool * nat :=
  (_ongoing self, w).

(** [time_point - time_point]: a duration in clock ticks. *)
Definition time_diff (a b : Z) : option Z := checked (a - b).

Definition elapsed (Period : ratio) (self : ProcessTiming) (w : nat) : option Z * nat :=
  if _ongoing self then
    let (t, w) := now w in
    (diff <- time_diff t (_startTime self) ;;
     duration_cast steady_clock_period Period diff, w)
  else
    (diff <- time_diff (_endTime self) (_startTime self) ;;
     duration_cast steady_clock_period Period diff, w).

Definition to_string (Period : ratio) (self : ProcessTiming) (w : nat) : option string * nat :=
  let (r, w) := elapsed Period self w in
  (duration <- r ;; ProcessTiming.TimeToString Period duration, w).

(** Calls a client can make on a stopwatch, and what they return. *)
Inductive call : Type :=
| Start
| Stop
| GetStartTime
| GetEndTime
| IsRunning
| Elapsed (Period : ratio)
| ToString (Period : ratio).

Inductive answer : Type :=
| Done
| TimePoint (t : Z)
| Flag (b : bool)
| Duration (r : option Z)
| Text (r : option string).

Definition exec (c : call) (self : ProcessTiming) (w : nat) : answer * ProcessTiming * nat :=
  match c with
  | Start => let (self', w') := start self w in (Done, self', w')
  | Stop => let (self', w') := stop self w in (Done, self', w')
  | GetStartTime => let (t, w') := getStartTime self w in (TimePoint t, self, w')
  | GetEndTime => let (t, w') := getEndTime self w in (TimePoint t, self, w')
  | IsRunning => let (b, w') := isRunning self w in (Flag b, self, w')
  | Elapsed P => let (r, w') := elapsed P self w in (Duration r, self, w')
  | ToString P => let (r, w') := to_string P self w in (Text r, self, w')
  end.

Fixpoint run (cs : list call) (self : ProcessTiming) (w : nat) : list answer * ProcessTiming * nat :=
  match cs with
  | [] => ([], self, w)
  | c :: cs' =>
      let '(a, self', w') := exec c self w in
      let '(l, self'', w'') := run cs' self' w' in
      (a :: l, self'', w'')
  end.

(** Neither [start()] nor [stop()]. *)
Definition is_query (c : call) : bool :=
  match c with
  | Start | Stop => false
  | _ => true
  end.

(** States a client can bring a stopwatch to: construction, then calls. *)
Inductive reachable : ProcessTiming -> nat -> Prop :=
| reach_construct : forall w, reachable (fst (construct w)) (snd (construct w))
| reach_exec : forall c self w,
    reachable self w ->
    reachable (snd (fst (exec c self w))) (snd (exec c self w)).

(** The clock never goes back. *)
Definition monotonic : Prop := forall n, clk n <= clk (S n).

End Stopwatch.

(** ** The decomposition of any count, in closed form

    Casts truncate toward zero, so on a negative count every step leaves
    a remainder that is negative or zero: quotient and remainder are those
    of C++ [/] and [%]. *)
Definition trest1 (k c : Z) : Z := Z.rem c (86400000000 * k).
Definition trest2 (k c : Z) : Z := Z.rem (trest1 k c) (3600000000 * k).
Definition trest3 (k c : Z) : Z := Z.rem (trest2 k c) (60000000 * k).
Definition trest4 (k c : Z) : Z := Z.rem (trest3 k c) (1000000 * k).
Definition trest5 (k c : Z) : Z := Z.rem (trest4 k c) (1000 * k).
Definition trest6 (k c : Z) : Z := Z.rem (trest5 k c) k.

Definition split_truncated_form (k c : Z) : TimeElements :=
  mkTimeElements
    (Z.quot c (86400000000 * k)) (Z.quot (trest1 k c) (3600000000 * k))
    (Z.quot (trest2 k c) (60000000 * k)) (Z.quot (trest3 k c) (1000000 * k))
    (Z.quot (trest4 k c) (1000 * k)) (Z.quot (trest5 k c) k)
    (Z.quot (trest6 k c * 1000) k).

(** Every field with its sign changed. *)
Definition negate (te : TimeElements) : TimeElements :=
  mkTimeElements (- d te) (- h te) (- m te) (- s te) (- ms te) (- us te) (- ns te).

(** The mirror image of [in_bounds], for the elements of a duration that
    is negative or zero. *)
Definition in_negative_bounds (te : TimeElements) : Prop :=
  d te <= 0 /\ -24 < h te <= 0 /\ -60 < m te <= 0 /\ -60 < s te <= 0
  /\ -1000 < ms te <= 0 /\ -1000 < us te <= 0 /\ -1000 < ns te <= 0.

(** ** The stopwatch, seen from outside *)

(** The instant [elapsed] and [getEndTime] measure to: the reading [now()]
    would give in a running stopwatch, the stored end in a stopped one. *)
Definition end_point (clk : nat -> Z) (self : ProcessTiming) (w : nat) : Z :=
  if _ongoing self then clk w else _endTime self.

Definition is_start (c : call) : bool :=
  match c with
  | Start => true
  | _ => false
  end.

(** ** Facts about [num] and [den] *)

Section RatioFacts.

Variable r : ratio.
Hypothesis Dnz : rD r <> 0.

Lemma ratio_gcd_pos : 0 < Z.gcd (rN r) (rD r).
Proof.
  pose proof (Z.gcd_nonneg (rN r) (rD r)).
  assert (Z.gcd (rN r) (rD r) <> 0) by (intro E; apply Z.gcd_eq_0_r in E; lia).
  lia.
Qed.

Lemma num_mul_gcd : rN r * Z.sgn (rD r) = num r * Z.gcd (rN r) (rD r).
Proof.
  pose proof ratio_gcd_pos as Hg.
  unfold num.
  destruct (Z.gcd_divide_l (rN r) (rD r)) as [k Hk].
  assert (Ha : Z.abs (rN r) = Z.abs k * Z.gcd (rN r) (rD r)).
  { rewrite Hk at 1. rewrite Z.abs_mul. f_equal. lia. }
  rewrite Ha. rewrite Z.div_mul by lia.
  assert (Hs : rN r = Z.sgn (rN r) * Z.abs (rN r)) by lia.
  rewrite Hs at 1. rewrite Ha. ring.
Qed.

Lemma den_mul_gcd : Z.abs (rD r) = den r * Z.gcd (rN r) (rD r).
Proof.
  pose proof ratio_gcd_pos as Hg.
  unfold den.
  destruct (Z.gcd_divide_r (rN r) (rD r)) as [k Hk].
  assert (Ha : Z.abs (rD r) = Z.abs k * Z.gcd (rN r) (rD r)).
  { rewrite Hk at 1. rewrite Z.abs_mul. f_equal. lia. }
  rewrite Ha. rewrite Z.div_mul by lia. reflexivity.
Qed.

Lemma den_pos : 0 < den r.
Proof.
  pose proof ratio_gcd_pos. pose proof den_mul_gcd. nia.
Qed.

Lemma num_den_coprime : Z.gcd (num r) (den r) = 1.
Proof.
  pose proof ratio_gcd_pos as Hg.
  assert (E : Z.gcd (rN r) (rD r)
              = Z.gcd (num r * Z.gcd (rN r) (rD r)) (den r * Z.gcd (rN r) (rD r))).
  { rewrite <- num_mul_gcd, <- den_mul_gcd. rewrite Z.gcd_abs_r.
    destruct (Z.sgn_spec (rD r)) as [[_ ->] | [[Hz _] | [_ ->]]].
    - now rewrite Z.mul_1_r.
    - lia.
    - rewrite Z.mul_opp_r, Z.mul_1_r. now rewrite Z.gcd_opp_l. }
  rewrite Z.gcd_mul_mono_r_nonneg in E by lia.
  pose proof (Z.gcd_nonneg (num r) (den r)). nia.
Qed.

End RatioFacts.

(** For positive template arguments, [num] and [den] are the arguments
    divided by their gcd. *)
Lemma num_of_pos (r : ratio) :
  0 < rN r -> 0 < rD r -> num r = rN r / Z.gcd (rN r) (rD r).
Proof.
  intros Ha Hb. unfold num.
  rewrite !Z.sgn_pos by assumption. rewrite Z.abs_eq by lia. lia.
Qed.

Lemma den_of_pos (r : ratio) :
  0 < rD r -> den r = rD r / Z.gcd (rN r) (rD r).
Proof.
  intros Hb. unfold den. rewrite Z.abs_eq by lia. reflexivity.
Qed.

(** A reduced positive fraction is determined by its cross products. *)
Lemma coprime_cross_eq (a b c e : Z) :
  0 < a -> 0 < b -> 0 < c -> 0 < e ->
  Z.gcd a b = 1 -> Z.gcd c e = 1 ->
  a * e = c * b -> a = c /\ b = e.
Proof.
  intros Ha Hb Hc He Gab Gce Hx.
  assert (Hac : (a | c)).
  { apply Z.gauss with (m := b); [exists e; lia | assumption]. }
  assert (Hca : (c | a)).
  { apply Z.gauss with (m := e); [exists b; lia | assumption]. }
  assert (a = c) by (apply Z.divide_antisym_nonneg; solve [lia | assumption]).
  subst c. split; [reflexivity |].
  apply Z.mul_reg_l with (p := a); lia.
Qed.

(** A product that fits [intmax_t] is not changed by wrapping. *)
Lemma wrap_exact (z : Z) : representable z = true -> wrap z = z.
Proof.
  unfold representable, intmax_min, intmax_max, wrap.
  rewrite andb_true_iff, !Z.leb_le. intros [Hlo Hhi].
  rewrite Z.mod_small by lia. lia.
Qed.

Lemma ratio_less_exact (r1 r2 : ratio) :
  ratio_less_ok r1 r2 = true ->
  ratio_less r1 r2 = (num r1 * den r2 <? num r2 * den r1).
Proof.
  unfold ratio_less_ok, ratio_less. rewrite andb_true_iff. intros [H1 H2].
  now rewrite !wrap_exact.
Qed.

Lemma ratio_less_ok_sym (r1 r2 : ratio) :
  ratio_less_ok r1 r2 = ratio_less_ok r2 r1.
Proof.
  unfold ratio_less_ok. apply andb_comm.
Qed.

Section Comparators.

Variables P1 P2 : ratio.
Hypothesis N1 : 0 < rN P1.
Hypothesis D1 : 0 < rD P1.
Hypothesis N2 : 0 < rN P2.
Hypothesis D2 : 0 < rD P2.

(** Cross products of the reduced terms and of the template arguments
    differ by the positive factor [gcd1 * gcd2]. *)
Lemma cross_products :
  exists k, 0 < k
    /\ rN P1 * rD P2 = num P1 * den P2 * k
    /\ rN P2 * rD P1 = num P2 * den P1 * k.
Proof.
  assert (Z1 : rD P1 <> 0) by lia. assert (Z2 : rD P2 <> 0) by lia.
  pose proof (ratio_gcd_pos P1 Z1) as G1. pose proof (ratio_gcd_pos P2 Z2) as G2.
  pose proof (num_mul_gcd P1 Z1) as En1. pose proof (den_mul_gcd P1 Z1) as Ed1.
  pose proof (num_mul_gcd P2 Z2) as En2. pose proof (den_mul_gcd P2 Z2) as Ed2.
  rewrite Z.sgn_pos, Z.mul_1_r in En1, En2 by assumption.
  rewrite Z.abs_eq in Ed1, Ed2 by lia.
  exists (Z.gcd (rN P1) (rD P1) * Z.gcd (rN P2) (rD P2)).
  revert G1 G2 En1 Ed1 En2 Ed2.
  generalize (Z.gcd (rN P1) (rD P1)) (Z.gcd (rN P2) (rD P2)).
  intros g1 g2 G1 G2 En1 Ed1 En2 Ed2.
  split; [nia |].
  rewrite En1, Ed1, En2, Ed2. split; ring.
Qed.

Lemma reduced_pos : 0 < num P1 /\ 0 < den P1 /\ 0 < num P2 /\ 0 < den P2.
Proof.
  rewrite !num_of_pos, !den_of_pos by assumption.
  assert (G1 : 0 < Z.gcd (rN P1) (rD P1)) by (apply ratio_gcd_pos; lia).
  assert (G2 : 0 < Z.gcd (rN P2) (rD P2)) by (apply ratio_gcd_pos; lia).
  repeat split; apply Z.div_str_pos; split; try assumption;
    apply Z.divide_pos_le; auto using Z.gcd_divide_l, Z.gcd_divide_r.
Qed.

Lemma ratio_less_iff :
  ratio_less_ok P1 P2 = true ->
  ratio_less P1 P2 = true <-> rN P1 * rD P2 < rN P2 * rD P1.
Proof.
  intros Hok. rewrite (ratio_less_exact P1 P2 Hok). rewrite Z.ltb_lt.
  destruct cross_products as (k & Hk & E1 & E2). rewrite E1, E2.
  split; intro H; nia.
Qed.

Lemma ratio_equal_iff : ratio_equal P1 P2 = true <-> rN P1 * rD P2 = rN P2 * rD P1.
Proof.
  unfold ratio_equal. rewrite andb_true_iff, !Z.eqb_eq.
  destruct cross_products as (k & Hk & E1 & E2). rewrite E1, E2.
  destruct reduced_pos as (Rn1 & Rd1 & Rn2 & Rd2).
  split.
  - intros [-> ->]. ring.
  - intro Hx.
    apply coprime_cross_eq; try assumption.
    + apply num_den_coprime; lia.
    + apply num_den_coprime; lia.
    + nia.
Qed.

End Comparators.

(** C6. The comparators do not agree with the order of the rationals for
    all positive periods, as the comment above them says they do: the
    cross products are [intmax_t] products and wrap.  [ratio<INTMAX,1>] is
    found less than [ratio<1,2>], and less or equal, and not greater,
    although [INTMAX/1 > 1/2]. *)
Theorem ratio_less_wraps :
  let P1 := mkRatio 9223372036854775807 1 in
  let P2 := mkRatio 1 2 in
  ratio_less P1 P2 = true
  /\ ratio_less_equal P1 P2 = true
  /\ ratio_greater P1 P2 = false
  /\ ratio_greater_equal P1 P2 = false
  /\ ~ (rN P1 * rD P2 < rN P2 * rD P1)
  /\ ratio_less_ok P1 P2 = false.
Proof.
  cbv zeta. repeat split; try (vm_compute; reflexivity).
  cbn [rN rD]. lia.
Qed.

(** X18. When neither cross product leaves [intmax_t], the six
    comparators decide the order of the rationals [n1/d1] and [n2/d2] by
    cross multiplication, and each of them is expressed by [ratio_less]
    through negation and swapping of the arguments. *)
Theorem ratio_comparators_order (n1 d1 n2 d2 : Z) :
  0 < n1 -> 0 < d1 -> 0 < n2 -> 0 < d2 ->
  ratio_less_ok (mkRatio n1 d1) (mkRatio n2 d2) = true ->
  let P1 := mkRatio n1 d1 in
  let P2 := mkRatio n2 d2 in
  (ratio_less P1 P2 = true <-> n1 * d2 < n2 * d1)
  /\ (ratio_less_equal P1 P2 = true <-> n1 * d2 <= n2 * d1)
  /\ (ratio_greater P1 P2 = true <-> n1 * d2 > n2 * d1)
  /\ (ratio_greater_equal P1 P2 = true <-> n1 * d2 >= n2 * d1)
  /\ (ratio_equal P1 P2 = true <-> n1 * d2 = n2 * d1)
  /\ (ratio_not_equal P1 P2 = true <-> n1 * d2 <> n2 * d1)
  /\ ratio_less_equal P1 P2 = negb (ratio_less P2 P1)
  /\ ratio_greater P1 P2 = ratio_less P2 P1
  /\ ratio_greater_equal P1 P2 = negb (ratio_less P1 P2)
  /\ ratio_equal P1 P2 = negb (ratio_less P1 P2) && negb (ratio_less P2 P1)
  /\ ratio_not_equal P1 P2 = ratio_less P1 P2 || ratio_less P2 P1.
Proof.
  intros Hn1 Hd1 Hn2 Hd2 Hok P1 P2.
  assert (Hok' : ratio_less_ok P2 P1 = true)
    by (rewrite ratio_less_ok_sym; exact Hok).
  assert (L12 : ratio_less P1 P2 = true <-> n1 * d2 < n2 * d1)
    by (apply (ratio_less_iff P1 P2); assumption).
  assert (L21 : ratio_less P2 P1 = true <-> n2 * d1 < n1 * d2)
    by (apply (ratio_less_iff P2 P1); assumption).
  assert (E12 : ratio_equal P1 P2 = true <-> n1 * d2 = n2 * d1)
    by (apply (ratio_equal_iff P1 P2); assumption).
  assert (A : ratio_less P1 P2 = (n1 * d2 <? n2 * d1))
    by (apply eq_true_iff_eq; now rewrite Z.ltb_lt).
  assert (B : ratio_less P2 P1 = (n2 * d1 <? n1 * d2))
    by (apply eq_true_iff_eq; now rewrite Z.ltb_lt).
  assert (C : ratio_equal P1 P2 = (n1 * d2 =? n2 * d1))
    by (apply eq_true_iff_eq; now rewrite Z.eqb_eq).
  unfold ratio_less_equal, ratio_greater, ratio_greater_equal, ratio_not_equal.
  rewrite A, B, C.
  destruct (Z.ltb_spec (n1 * d2) (n2 * d1)), (Z.ltb_spec (n2 * d1) (n1 * d2)),
    (Z.eqb_spec (n1 * d2) (n2 * d1));
    cbn; repeat split; intros; try reflexivity; try discriminate; lia.
Qed.

Lemma ratio_comparators_order_witness :
  ratio_less milli seconds_period = true /\ ratio_equal milli (mkRatio 3 3000) = true.
Proof.
  split.
  - apply (ratio_comparators_order 1 1000 1 1); solve [lia | reflexivity].
  - apply (ratio_comparators_order 1 1000 3 3000); solve [lia | reflexivity].
Defined.

(** ** The renderer *)

Lemma append_empty_r (x : string) : (x ++ "")%string = x.
Proof.
  induction x as [|c x IH]; simpl; [reflexivity | now rewrite IH].
Qed.

Lemma append_assoc (x y z : string) : ((x ++ y) ++ z)%string = (x ++ y ++ z)%string.
Proof.
  induction x as [|c x IH]; simpl; [reflexivity | now rewrite IH].
Qed.

(** The source function is the fold of [block] over the seven rows. *)
Lemma TimeElementsToString_blocks (P : ratio) (te : TimeElements) :
  ProcessTiming.TimeElementsToString P te = snd (blocks P (rows te)).
Proof. reflexivity. Qed.

Lemma blocks_snoc (P : ratio) (l : list unit_row) (u : unit_row) :
  blocks P (l ++ [u]) = block P (blocks P l) u.
Proof.
  unfold blocks. now rewrite fold_left_app.
Qed.

Lemma firstn_snoc {A : Type} (l : list A) (k : nat) (u : A) :
  nth_error l k = Some u -> firstn (S k) l = firstn k l ++ [u].
Proof.
  revert k. induction l as [|a l IH]; intros [|k] H; simpl in *; try discriminate.
  - now inversion H.
  - f_equal. now apply IH.
Qed.

(** [activate] is set as soon as one of the units seen so far has a
    positive count, whatever the origin period. *)
Lemma fst_fold_block (P : ratio) (l : list unit_row) (st : bool * string) :
  fst (fold_left (block P) l st) = existsb (fun u => u_count u >? 0) l || fst st.
Proof.
  revert st. induction l as [|u l IH]; intros st; simpl; [reflexivity |].
  rewrite IH. unfold block; simpl.
  destruct (u_count u >? 0); simpl;
    [now rewrite orb_true_r | reflexivity].
Qed.

Lemma activate_at_existsb (P : ratio) (te : TimeElements) (k : nat) :
  activate_at P te k = existsb (fun u => u_count u >? 0) (firstn (S k) (rows te)).
Proof.
  unfold activate_at, blocks. rewrite fst_fold_block. simpl. apply orb_false_r.
Qed.

(** What one more block adds to the stream. *)
Lemma stream_step (P : ratio) (te : TimeElements) (k : nat) (u : unit_row) :
  nth_error (rows te) k = Some u ->
  snd (blocks P (firstn (S k) (rows te)))
  = (snd (blocks P (firstn k (rows te))) ++ piece P te k)%string.
Proof.
  intros Hu. unfold piece, printed, activate_at. rewrite Hu.
  rewrite (firstn_snoc _ _ _ Hu), blocks_snoc.
  unfold block, candidate, unit_text; simpl.
  destruct (ratio_less_equal P (u_period u) && _); simpl;
    [reflexivity | now rewrite append_empty_r].
Qed.

(** The output is the concatenation, coarse to fine, of what each unit
    contributes. *)
Lemma TimeElementsToString_pieces (P : ratio) (te : TimeElements) :
  ProcessTiming.TimeElementsToString P te
  = (piece P te 0 ++ piece P te 1 ++ piece P te 2 ++ piece P te 3
     ++ piece P te 4 ++ piece P te 5 ++ piece P te 6)%string.
Proof.
  rewrite TimeElementsToString_blocks.
  change (rows te) with (firstn 7 (rows te)) at 1.
  rewrite (stream_step P te 6 _ eq_refl), (stream_step P te 5 _ eq_refl),
    (stream_step P te 4 _ eq_refl), (stream_step P te 3 _ eq_refl),
    (stream_step P te 2 _ eq_refl), (stream_step P te 1 _ eq_refl),
    (stream_step P te 0 _ eq_refl).
  simpl firstn. unfold blocks; simpl fold_left. simpl snd.
  rewrite !append_assoc. reflexivity.
Qed.

Lemma piece_in_output (P : ratio) (te : TimeElements) (k : nat) (u : unit_row) :
  nth_error (rows te) k = Some u ->
  exists pre post,
    ProcessTiming.TimeElementsToString P te = (pre ++ piece P te k ++ post)%string.
Proof.
  intros Hu. rewrite TimeElementsToString_pieces.
  destruct k as [|[|[|[|[|[|[|k]]]]]]].
  - exists ""%string. eexists. simpl. reflexivity.
  - exists (piece P te 0). eexists. reflexivity.
  - exists (piece P te 0 ++ piece P te 1)%string. eexists.
    rewrite !append_assoc. reflexivity.
  - exists (piece P te 0 ++ piece P te 1 ++ piece P te 2)%string. eexists.
    rewrite !append_assoc. reflexivity.
  - exists (piece P te 0 ++ piece P te 1 ++ piece P te 2 ++ piece P te 3)%string.
    eexists. rewrite !append_assoc. reflexivity.
  - exists (piece P te 0 ++ piece P te 1 ++ piece P te 2 ++ piece P te 3
            ++ piece P te 4)%string.
    eexists. rewrite !append_assoc. reflexivity.
  - exists (piece P te 0 ++ piece P te 1 ++ piece P te 2 ++ piece P te 3
            ++ piece P te 4 ++ piece P te 5)%string.
    exists ""%string. rewrite !append_assoc, append_empty_r. reflexivity.
  - simpl in Hu. destruct k; discriminate.
Qed.

Lemma existsb_firstn_false {A : Type} (f : A -> bool) (l : list A) (n : nat) :
  existsb f l = false -> existsb f (firstn n l) = false.
Proof.
  revert n. induction l as [|a l IH]; intros [|n] H; simpl in *; try reflexivity.
  apply orb_false_iff in H as [Ha Hl]. rewrite Ha. simpl. now apply IH.
Qed.

Lemma piece_not_printed (P : ratio) (te : TimeElements) (k : nat) :
  printed P te k = false -> piece P te k = ""%string.
Proof.
  intros H. unfold piece. rewrite H. now destruct (nth_error (rows te) k).
Qed.

(** The periods of the rows are the seven the exactness test runs
    through. *)
Lemma rows_period_ok (P : ratio) (te : TimeElements) (k : nat) (u : unit_row) :
  ProcessTiming.TimeElementsToString_ok P = true ->
  nth_error (rows te) k = Some u ->
  ratio_less_ok (u_period u) P = true.
Proof.
  unfold ProcessTiming.TimeElementsToString_ok. cbn [forallb].
  rewrite !andb_true_iff.
  intros (H0 & H1 & H2 & H3 & H4 & H5 & H6 & _) Hu.
  destruct k as [|[|[|[|[|[|[|k]]]]]]]; cbn in Hu;
    try (injection Hu as <-; cbn [u_period]; assumption).
  destruct k; discriminate.
Qed.

(** Where the comparison is exact, the code's test is the order of the
    periods. *)
Lemma candidate_exact (P : ratio) (u : unit_row) :
  ratio_less_ok (u_period u) P = true ->
  candidate P u = true <-> period_le P (u_period u).
Proof.
  intros Hok. unfold candidate, ratio_less_equal, period_le.
  rewrite (ratio_less_exact _ _ Hok), negb_true_iff, Z.ltb_ge. reflexivity.
Qed.

(** C3, as the code has it. Take an origin period for which none of the
    seven comparisons overflows.  Once a unit, candidate or not, has a
    strictly positive count, [activate] is set at every later print test,
    and every later unit whose period is at least the origin period is
    printed, zero or not: its text is part of the output. *)
Theorem activation_continuity (P : ratio) (te : TimeElements)
    (i j : nat) (ui uj : unit_row) :
  ProcessTiming.TimeElementsToString_ok P = true ->
  nth_error (rows te) i = Some ui ->
  nth_error (rows te) j = Some uj ->
  (i <= j)%nat ->
  0 < u_count ui ->
  activate_at P te j = true
  /\ (period_le P (u_period uj) ->
      candidate P uj = true
      /\ printed P te j = true
      /\ piece P te j = unit_text uj
      /\ exists pre post,
           ProcessTiming.TimeElementsToString P te
           = (pre ++ unit_text uj ++ post)%string).
Proof.
  intros Hok Hi Hj Hle Hpos.
  assert (Hact : activate_at P te j = true).
  { rewrite activate_at_existsb. apply existsb_exists. exists ui. split.
    - apply nth_error_In with (n := i).
      rewrite nth_error_firstn.
      destruct (Nat.ltb_spec i (S j)); [assumption | lia].
    - apply Z.gtb_lt. lia. }
  split; [exact Hact |].
  intros Hge.
  assert (Hc : candidate P uj = true).
  { apply candidate_exact; [| exact Hge].
    exact (rows_period_ok P te j uj Hok Hj). }
  assert (Hp : printed P te j = true).
  { unfold printed. rewrite Hj, Hc, Hact. reflexivity. }
  assert (Hpc : piece P te j = unit_text uj).
  { unfold piece. rewrite Hj, Hp. reflexivity. }
  repeat split; try assumption.
  destruct (piece_in_output P te j uj Hj) as (pre & post & E).
  exists pre, post. now rewrite <- Hpc.
Qed.

Lemma activation_continuity_witness :
  piece seconds_period (mkTimeElements 0 1 0 5 0 0 0) 2 = "00m."%string.
Proof.
  destruct (activation_continuity seconds_period (mkTimeElements 0 1 0 5 0 0 0)
              1 2 _ _ eq_refl eq_refl eq_refl) as [_ H].
  - lia.
  - simpl. lia.
  - destruct H as (_ & _ & Hp & _).
    + unfold period_le. vm_compute. discriminate.
    + exact Hp.
Defined.

(** C3 as worded fails, also where no comparison overflows: a count that
    is non-zero but negative does not set [activate].  With -1 hour and
    nothing else, at nanosecond resolution, the hours are a candidate and
    yet nothing is printed. *)
Lemma activation_nonzero_counterexample :
  ~ (forall (P : ratio) (te : TimeElements) (i j : nat) (ui uj : unit_row),
       ProcessTiming.TimeElementsToString_ok P = true ->
       nth_error (rows te) i = Some ui ->
       nth_error (rows te) j = Some uj ->
       (i <= j)%nat ->
       u_count ui <> 0 ->
       activate_at P te j = true
       /\ (candidate P uj = true -> printed P te j = true)).
Proof.
  intros H.
  destruct (H nano (mkTimeElements 0 (-1) 0 0 0 0 0) 1%nat 1%nat _ _
              eq_refl eq_refl eq_refl)
    as [Hact _].
  - lia.
  - simpl. lia.
  - vm_compute in Hact. discriminate.
Qed.

(** The input of the counterexample is what [SplitTimeElements] yields for
    minus one hour; the whole conversion then prints nothing. *)
Example negative_hour :
  ProcessTiming.SplitTimeElements nano (-3600000000000)
  = Some (mkTimeElements 0 (-1) 0 0 0 0 0)
  /\ ProcessTiming.TimeToString nano (-3600000000000) = Some ""%string.
Proof. split; vm_compute; reflexivity. Qed.

(** One hour and five seconds, origin in seconds: the minutes are printed
    although zero, nothing finer than a second is. *)
Example hour_and_five_seconds :
  ProcessTiming.TimeElementsToString seconds_period (mkTimeElements 0 1 0 5 0 0 0)
  = "01h.00m.05s."%string.
Proof. vm_compute. reflexivity. Qed.

(** C4. A unit finer than the origin resolution can be printed: the test
    [ratio_less_equal<Period, unit>] compares wrapped products.  With an
    origin period of [10^16] seconds and every count 1, the milliseconds
    are found to be a candidate and are the only unit printed, although a
    millisecond is shorter than the period; every coarser unit is left
    out. *)
Theorem finer_unit_printed_on_overflow :
  let P := mkRatio 10000000000000000 1 in
  let te := mkTimeElements 1 1 1 1 1 1 1 in
  ProcessTiming.TimeElementsToString P te = "001ms."%string
  /\ printed P te 4 = true
  /\ ~ period_le P milli
  /\ ratio_less_equal P milli = true
  /\ ProcessTiming.TimeElementsToString_ok P = false.
Proof.
  cbv zeta. repeat split; try (vm_compute; reflexivity).
  unfold period_le. vm_compute. intros H. apply H. reflexivity.
Qed.

(** X19. For an origin period for which none of the seven comparisons
    overflows, a unit contributes to the output only if the origin period
    is at most the unit's period; a unit finer than the origin resolution
    is not printed, whatever its count and whatever [activate] is. *)
Theorem only_candidates_printed (P : ratio) (te : TimeElements)
    (k : nat) (u : unit_row) :
  ProcessTiming.TimeElementsToString_ok P = true ->
  nth_error (rows te) k = Some u ->
  (printed P te k = true -> period_le P (u_period u))
  /\ (piece P te k <> ""%string -> period_le P (u_period u))
  /\ (~ period_le P (u_period u) ->
      printed P te k = false /\ piece P te k = ""%string)
  /\ ProcessTiming.TimeElementsToString P te
     = (piece P te 0 ++ piece P te 1 ++ piece P te 2 ++ piece P te 3
        ++ piece P te 4 ++ piece P te 5 ++ piece P te 6)%string.
Proof.
  intros Hok Hu.
  pose proof (candidate_exact P u (rows_period_ok P te k u Hok Hu)) as Hex.
  assert (Hpr : printed P te k = true -> period_le P (u_period u)).
  { unfold printed. rewrite Hu. intros Hp.
    apply andb_true_iff in Hp as [Hc _]. now apply Hex. }
  assert (Hnot : ~ period_le P (u_period u) -> printed P te k = false).
  { intros Hfiner. destruct (printed P te k) eqn:Hp; [| reflexivity].
    exfalso. now apply Hfiner, Hpr. }
  split; [exact Hpr |]. split; [| split].
  - intros Hne. apply Hpr.
    destruct (printed P te k) eqn:Hp; [reflexivity |].
    exfalso. apply Hne. now apply piece_not_printed.
  - intros Hfiner. split; [now apply Hnot |].
    apply piece_not_printed. now apply Hnot.
  - apply TimeElementsToString_pieces.
Qed.

Lemma only_candidates_printed_witness :
  piece seconds_period (mkTimeElements 0 0 0 1 7 0 0) 4 = ""%string.
Proof.
  destruct (only_candidates_printed seconds_period (mkTimeElements 0 0 0 1 7 0 0)
              4 _ eq_refl eq_refl) as (_ & _ & H & _).
  destruct H as [_ Hp].
  - unfold period_le. vm_compute. intros H. apply H. reflexivity.
  - exact Hp.
Defined.

(** Without a positive count [activate] stays clear and nothing is
    printed. *)
Lemma no_positive_count (P : ratio) (te : TimeElements) :
  existsb (fun u => u_count u >? 0) (rows te) = false ->
  (forall k, activate_at P te k = false)
  /\ ProcessTiming.TimeElementsToString P te = ""%string.
Proof.
  intros Hnone.
  assert (Hact : forall k, activate_at P te k = false).
  { intros k. rewrite activate_at_existsb. now apply existsb_firstn_false. }
  split; [exact Hact |].
  assert (Hpc : forall k, piece P te k = ""%string).
  { intros k. apply piece_not_printed. unfold printed.
    destruct (nth_error (rows te) k); [| reflexivity].
    rewrite Hact. apply andb_false_r. }
  rewrite TimeElementsToString_pieces, !Hpc. reflexivity.
Qed.

(** C10. Counts that are zero or negative never set [activate]: when no
    field is positive the rendered string is empty, for every origin
    period. *)
Theorem nonpositive_renders_empty (P : ratio) (te : TimeElements) :
  d te <= 0 -> h te <= 0 -> m te <= 0 -> s te <= 0 ->
  ms te <= 0 -> us te <= 0 -> ns te <= 0 ->
  (forall k, activate_at P te k = false)
  /\ ProcessTiming.TimeElementsToString P te = ""%string.
Proof.
  intros Hd Hh Hm Hs Hms Hus Hns.
  apply no_positive_count. simpl.
  repeat match goal with
  | |- context [?x >? 0] =>
      replace (x >? 0) with false by (symmetry; rewrite Z.gtb_ltb; apply Z.ltb_ge; lia)
  end.
  reflexivity.
Qed.

Lemma nonpositive_renders_empty_witness :
  ProcessTiming.TimeElementsToString nano (mkTimeElements (-1) (-1) 0 (-30) 0 0 (-7))
  = ""%string.
Proof.
  apply (nonpositive_renders_empty nano (mkTimeElements (-1) (-1) 0 (-30) 0 0 (-7)));
    simpl; lia.
Defined.

(** ** Which periods SplitTimeElements accepts *)

Lemma representable_iff (z : Z) :
  representable z = true <-> intmax_min <= z <= intmax_max.
Proof.
  unfold representable. rewrite andb_true_iff, !Z.leb_le. reflexivity.
Qed.

Lemma checked_in_range (z : Z) :
  intmax_min <= z <= intmax_max -> checked z = Some z.
Proof.
  intros H. unfold checked. now rewrite (proj2 (representable_iff z) H).
Qed.

(** With an integer representation, [duration -= timeElements.us] compiles
    only when a microsecond is a whole number of ticks: the period is
    [1 / (1000000 * k)].  The cast to days needs [86400 * 1000000 * k] to
    be an [intmax_t]. *)
Lemma SplitTimeElements_ok_shape (P : ratio) :
  ProcessTiming.SplitTimeElements_ok P = true ->
  num P = 1
  /\ exists k, 0 < k /\ den P = 1000000 * k /\ 86400 * den P <= intmax_max.
Proof.
  unfold ProcessTiming.SplitTimeElements_ok. simpl forallb.
  rewrite !andb_true_iff.
  intros [[Hp ((Hdays & _) & _ & _ & _ & _ & (_ & Hconv) & _)] _].
  unfold period_ok in Hp. rewrite !andb_true_iff in Hp.
  destruct Hp as [[[Hnz _] _] Hnum].
  apply negb_true_iff, Z.eqb_neq in Hnz. apply Z.ltb_lt in Hnum.
  pose proof (den_pos P Hnz) as Hden.
  pose proof (num_den_coprime P Hnz) as Hco.
  unfold convertible in Hconv. apply andb_true_iff in Hconv as [_ Hconv].
  apply Z.eqb_eq in Hconv.
  unfold ratio_divide in Hconv.
  change (num micro) with 1 in Hconv. change (den micro) with 1000000 in Hconv.
  rewrite den_of_pos in Hconv by (cbn [rD]; lia). cbn [rN rD] in Hconv.
  assert (Hdiv : (1000000 * num P | den P)).
  { destruct (Z.gcd_divide_r (1 * den P) (1000000 * num P)) as [q Hq].
    assert (Hg : 0 < Z.gcd (1 * den P) (1000000 * num P)).
    { pose proof (Z.gcd_nonneg (1 * den P) (1000000 * num P)).
      assert (Z.gcd (1 * den P) (1000000 * num P) <> 0)
        by (intro E; apply Z.gcd_eq_0_r in E; lia).
      lia. }
    rewrite Hq in Hconv at 1. rewrite Z.div_mul in Hconv by lia. subst q.
    rewrite Z.mul_1_l in Hq. rewrite Hq.
    replace (1 * den P) with (den P) by ring. apply Z.gcd_divide_l. }
  destruct Hdiv as [k Hk].
  assert (Hn1 : num P = 1).
  { assert (Hd : (num P | den P)) by (exists (k * 1000000); lia).
    apply Z.divide_gcd_iff in Hd; lia. }
  split; [exact Hn1 |].
  exists k. rewrite Hn1 in Hk. repeat split; try lia.
  unfold duration_cast_ok in Hdays. apply andb_true_iff in Hdays as [_ Hdays].
  apply representable_iff in Hdays.
  unfold ratio_divide in Hdays.
  change (num days_period) with 86400 in Hdays.
  change (den days_period) with 1 in Hdays.
  rewrite den_of_pos in Hdays by (cbn [rD]; lia). cbn [rN rD] in Hdays.
  rewrite Hn1 in Hdays. change (1 * 1) with 1 in Hdays.
  rewrite Z.gcd_1_l, Z.div_1_r in Hdays. lia.
Qed.

(** Microseconds, nanoseconds and picoseconds are accepted; seconds and
    milliseconds are not ([duration -= timeElements.us] would lose
    precision), nor are femtoseconds (a day of them exceeds [intmax_t]). *)
Example accepted_periods :
  ProcessTiming.SplitTimeElements_ok micro = true
  /\ ProcessTiming.SplitTimeElements_ok nano = true
  /\ ProcessTiming.SplitTimeElements_ok (mkRatio 1 1000000000000) = true
  /\ ProcessTiming.SplitTimeElements_ok seconds_period = false
  /\ ProcessTiming.SplitTimeElements_ok milli = false
  /\ ProcessTiming.SplitTimeElements_ok (mkRatio 1 1000000000000000) = false.
Proof. repeat split; vm_compute; reflexivity. Qed.

(** One step of the decomposition on a non-negative remainder: the field
    is the quotient, [-=] leaves the rest. *)
Lemma split_step (P U : ratio) (f c : Z) :
  num (ratio_divide P U) = 1 -> den (ratio_divide P U) = f ->
  num (ratio_divide U P) = f -> den (ratio_divide U P) = 1 ->
  0 < f -> 0 <= c <= intmax_max ->
  duration_cast P U c = Some (c / f)
  /\ minus_assign P U c (c / f) = Some (c mod f).
Proof.
  intros Hn Hd Hn' Hd' Hf Hc.
  assert (Hmin : intmax_min <= 0) by (unfold intmax_min; lia).
  pose proof (Z.mul_div_le c f Hf) as Hle.
  pose proof (Z.div_pos c f (proj1 Hc) Hf) as Hq.
  pose proof (Z.mod_pos_bound c f Hf) as Hm.
  pose proof (Z.div_mod c f ltac:(lia)) as Hdm.
  unfold minus_assign, duration_cast. rewrite Hn, Hd, Hn', Hd'.
  rewrite Z.mul_1_r. rewrite checked_in_range by lia. cbn [bind].
  rewrite Z.quot_div_nonneg by lia. split; [reflexivity |].
  rewrite checked_in_range by nia. cbn [bind].
  rewrite Z.quot_1_r. rewrite checked_in_range by nia.
  f_equal. lia.
Qed.

(** ** Conversion factors for an accepted period *)

Section AcceptedPeriod.

Variable P : ratio.
Variable k : Z.
Hypothesis Pnum : num P = 1.
Hypothesis Pden : den P = 1000000 * k.
Hypothesis kpos : 0 < k.
Hypothesis Pmax : 86400 * den P <= intmax_max.

(** A unit [U = a/b] that is [f] ticks long: the factor from the period to
    the unit is [1/f], the factor back is [f/1]. *)
Lemma unit_factors (U : ratio) (a b f : Z) :
  num U = a -> den U = b -> 0 < b -> 0 < f -> a * den P = f * b ->
  num (ratio_divide P U) = 1 /\ den (ratio_divide P U) = f
  /\ num (ratio_divide U P) = f /\ den (ratio_divide U P) = 1.
Proof.
  intros Ha Hb Hbpos Hfpos Hf. unfold ratio_divide.
  rewrite Ha, Hb, Pnum.
  assert (Hfb : 0 < f * b) by (apply Z.mul_pos_pos; assumption).
  rewrite !(num_of_pos (mkRatio _ _)), !(den_of_pos (mkRatio _ _))
    by (cbn [rN rD]; lia).
  cbn [rN rD].
  rewrite Z.mul_comm in Hf. rewrite !Z.mul_1_l, !Z.mul_1_r, (Z.mul_comm a), Hf.
  rewrite (Z.gcd_comm (f * b) b).
  rewrite (Z.mul_comm f b), Z.gcd_mul_diag_l by lia.
  rewrite Z.div_same by lia. rewrite (Z.mul_comm b f), Z.div_mul by lia.
  repeat split.
Qed.

Lemma factors_days :
  num (ratio_divide P days_period) = 1
  /\ den (ratio_divide P days_period) = 86400000000 * k
  /\ num (ratio_divide days_period P) = 86400000000 * k
  /\ den (ratio_divide days_period P) = 1.
Proof. apply (unit_factors days_period 86400 1); try reflexivity; lia. Qed.

Lemma factors_hours :
  num (ratio_divide P hours_period) = 1
  /\ den (ratio_divide P hours_period) = 3600000000 * k
  /\ num (ratio_divide hours_period P) = 3600000000 * k
  /\ den (ratio_divide hours_period P) = 1.
Proof. apply (unit_factors hours_period 3600 1); try reflexivity; lia. Qed.

Lemma factors_minutes :
  num (ratio_divide P minutes_period) = 1
  /\ den (ratio_divide P minutes_period) = 60000000 * k
  /\ num (ratio_divide minutes_period P) = 60000000 * k
  /\ den (ratio_divide minutes_period P) = 1.
Proof. apply (unit_factors minutes_period 60 1); try reflexivity; lia. Qed.

Lemma factors_seconds :
  num (ratio_divide P seconds_period) = 1
  /\ den (ratio_divide P seconds_period) = 1000000 * k
  /\ num (ratio_divide seconds_period P) = 1000000 * k
  /\ den (ratio_divide seconds_period P) = 1.
Proof. apply (unit_factors seconds_period 1 1); try reflexivity; lia. Qed.

Lemma factors_milli :
  num (ratio_divide P milli) = 1
  /\ den (ratio_divide P milli) = 1000 * k
  /\ num (ratio_divide milli P) = 1000 * k
  /\ den (ratio_divide milli P) = 1.
Proof. apply (unit_factors milli 1 1000); try reflexivity; lia. Qed.

Lemma factors_micro :
  num (ratio_divide P micro) = 1
  /\ den (ratio_divide P micro) = k
  /\ num (ratio_divide micro P) = k
  /\ den (ratio_divide micro P) = 1.
Proof. apply (unit_factors micro 1 1000000); try reflexivity; lia. Qed.

(** The last cast, to nanoseconds, may be inexact: its factor is
    [1000 / k] in lowest terms.  On what is left after the microseconds
    it yields the whole nanoseconds. *)
Lemma cast_nano (c : Z) :
  0 <= c < k ->
  duration_cast P nano c = Some (c * 1000 / k).
Proof.
  intros Hc. unfold duration_cast, ratio_divide.
  change (num nano) with 1. change (den nano) with 1000000000.
  rewrite Pnum, Pden.
  rewrite (num_of_pos (mkRatio _ _)), (den_of_pos (mkRatio _ _))
    by (cbn [rN rD]; lia).
  cbn [rN rD].
  replace (1 * 1000000000) with (1000000 * 1000) by reflexivity.
  replace (1000000 * k * 1) with (1000000 * k) by ring.
  rewrite Z.gcd_mul_mono_l_nonneg by lia.
  assert (Hg : 0 < Z.gcd 1000 k).
  { pose proof (Z.gcd_nonneg 1000 k).
    assert (Z.gcd 1000 k <> 0) by (intro E; apply Z.gcd_eq_0_r in E; lia). lia. }
  rewrite !Z.div_mul_cancel_l by lia.
  destruct (Z.gcd_divide_l 1000 k) as [n' Hn'].
  destruct (Z.gcd_divide_r 1000 k) as [k' Hk'].
  revert Hg Hn' Hk'. generalize (Z.gcd 1000 k). intros g Hg Hn' Hk'.
  assert (E1 : 1000 / g = n') by (rewrite Hn'; apply Z.div_mul; lia).
  assert (E2 : k / g = k') by (rewrite Hk'; apply Z.div_mul; lia).
  rewrite E1, E2.
  assert (Hk'pos : 0 < k') by nia.
  assert (Hn'pos : 0 < n') by nia.
  assert (Hn'le : n' <= 1000) by nia.
  assert (Hrange : 0 <= c * n' <= intmax_max).
  { rewrite Pden in Pmax. unfold intmax_max in *. nia. }
  assert (Hmin : intmax_min <= 0) by (unfold intmax_min; lia).
  rewrite checked_in_range by lia. cbn [bind].
  rewrite Z.quot_div_nonneg by lia. f_equal.
  replace (c * 1000) with (c * n' * g) by (rewrite Hn'; ring).
  rewrite Hk'. now rewrite Z.div_mul_cancel_r by lia.
Qed.

End AcceptedPeriod.

(** ** SplitTimeElements on a non-negative duration *)

Section SplitNonNegative.

Variable P : ratio.
Variable k : Z.
Hypothesis Pnum : num P = 1.
Hypothesis Pden : den P = 1000000 * k.
Hypothesis kpos : 0 < k.
Hypothesis Pmax : 86400 * den P <= intmax_max.

Variable c : Z.
Hypothesis crange : 0 <= c <= intmax_max.

Lemma rests_bounded :
  0 <= rest1 k c < 86400000000 * k /\ 0 <= rest2 k c < 3600000000 * k
  /\ 0 <= rest3 k c < 60000000 * k /\ 0 <= rest4 k c < 1000000 * k
  /\ 0 <= rest5 k c < 1000 * k /\ 0 <= rest6 k c < k.
Proof.
  unfold rest6, rest5, rest4, rest3, rest2, rest1.
  repeat split; apply Z.mod_pos_bound; lia.
Qed.

Lemma rests_decreasing :
  rest1 k c <= c /\ rest2 k c <= rest1 k c /\ rest3 k c <= rest2 k c
  /\ rest4 k c <= rest3 k c /\ rest5 k c <= rest4 k c /\ rest6 k c <= rest5 k c.
Proof.
  pose proof rests_bounded as (B1 & B2 & B3 & B4 & B5 & B6).
  repeat split;
    [ unfold rest1 | unfold rest2 | unfold rest3
    | unfold rest4 | unfold rest5 | unfold rest6 ];
    apply Z.mod_le; lia.
Qed.

Lemma SplitTimeElements_nonneg :
  ProcessTiming.SplitTimeElements P c = Some (split_closed_form k c).
Proof.
  pose proof rests_bounded as (B1 & B2 & B3 & B4 & B5 & B6).
  pose proof rests_decreasing as (L1 & L2 & L3 & L4 & L5 & L6).
  destruct (factors_days P k Pnum Pden kpos) as (Fd1 & Fd2 & Fd3 & Fd4).
  destruct (factors_hours P k Pnum Pden kpos) as (Fh1 & Fh2 & Fh3 & Fh4).
  destruct (factors_minutes P k Pnum Pden kpos) as (Fm1 & Fm2 & Fm3 & Fm4).
  destruct (factors_seconds P k Pnum Pden kpos) as (Fs1 & Fs2 & Fs3 & Fs4).
  destruct (factors_milli P k Pnum Pden kpos) as (Fms1 & Fms2 & Fms3 & Fms4).
  destruct (factors_micro P k Pnum Pden kpos) as (Fus1 & Fus2 & Fus3 & Fus4).
  destruct (split_step P days_period _ c Fd1 Fd2 Fd3 Fd4) as [Cd Md]; try lia.
  destruct (split_step P hours_period _ (rest1 k c) Fh1 Fh2 Fh3 Fh4) as [Ch Mh]; try lia.
  destruct (split_step P minutes_period _ (rest2 k c) Fm1 Fm2 Fm3 Fm4) as [Cm Mm]; try lia.
  destruct (split_step P seconds_period _ (rest3 k c) Fs1 Fs2 Fs3 Fs4) as [Cs Ms]; try lia.
  destruct (split_step P milli _ (rest4 k c) Fms1 Fms2 Fms3 Fms4) as [Cms Mms]; try lia.
  destruct (split_step P micro _ (rest5 k c) Fus1 Fus2 Fus3 Fus4) as [Cus Mus]; try lia.
  fold (rest1 k c) in Md. fold (rest2 k c) in Mh. fold (rest3 k c) in Mm.
  fold (rest4 k c) in Ms. fold (rest5 k c) in Mms. fold (rest6 k c) in Mus.
  unfold ProcessTiming.SplitTimeElements.
  rewrite Cd; cbn [bind]. rewrite Md; cbn [bind].
  rewrite Ch; cbn [bind]. rewrite Mh; cbn [bind].
  rewrite Cm; cbn [bind]. rewrite Mm; cbn [bind].
  rewrite Cs; cbn [bind]. rewrite Ms; cbn [bind].
  rewrite Cms; cbn [bind]. rewrite Mms; cbn [bind].
  rewrite Cus; cbn [bind]. rewrite Mus; cbn [bind].
  rewrite (cast_nano P k Pnum Pden kpos Pmax) by lia.
  reflexivity.
Qed.

End SplitNonNegative.

(** An accepted period and a non-negative count: the decomposition is
    defined and is the closed form. *)
Lemma SplitTimeElements_accepted (P : ratio) (c : Z) :
  ProcessTiming.SplitTimeElements_ok P = true ->
  0 <= c <= intmax_max ->
  exists k, 0 < k /\ num P = 1 /\ den P = 1000000 * k
    /\ ProcessTiming.SplitTimeElements P c = Some (split_closed_form k c).
Proof.
  intros Hok Hc.
  destruct (SplitTimeElements_ok_shape P Hok) as (Hn & k & Hk & Hd & Hmax).
  exists k. repeat split; try assumption.
  now apply SplitTimeElements_nonneg.
Qed.

Lemma div_below (x a f : Z) : 0 < f -> 0 <= x < a * f -> 0 <= x / f < a.
Proof.
  intros Hf Hx. split.
  - apply Z.div_pos; lia.
  - apply Z.div_lt_upper_bound; lia.
Qed.

Lemma closed_form_in_bounds (k c : Z) :
  0 < k -> 0 <= c -> in_bounds (split_closed_form k c).
Proof.
  intros Hk Hc.
  assert (B1 : 0 <= rest1 k c < 86400000000 * k) by (apply Z.mod_pos_bound; lia).
  assert (B2 : 0 <= rest2 k c < 3600000000 * k) by (apply Z.mod_pos_bound; lia).
  assert (B3 : 0 <= rest3 k c < 60000000 * k) by (apply Z.mod_pos_bound; lia).
  assert (B4 : 0 <= rest4 k c < 1000000 * k) by (apply Z.mod_pos_bound; lia).
  assert (B5 : 0 <= rest5 k c < 1000 * k) by (apply Z.mod_pos_bound; lia).
  assert (B6 : 0 <= rest6 k c < k) by (apply Z.mod_pos_bound; lia).
  unfold in_bounds, split_closed_form; cbn [d h m s ms us ns].
  split; [apply Z.div_pos; lia |].
  split; [apply div_below; lia |].
  split; [apply div_below; lia |].
  split; [apply div_below; lia |].
  split; [apply div_below; lia |].
  split; [apply div_below; lia |].
  apply div_below; lia.
Qed.

Lemma closed_form_reassemble (k c : Z) :
  0 < k -> reassemble_ns (split_closed_form k c) = c * 1000 / k.
Proof.
  intros Hk.
  pose proof (Z.div_mod c (86400000000 * k) ltac:(lia)) as E0.
  pose proof (Z.div_mod (rest1 k c) (3600000000 * k) ltac:(lia)) as E1.
  pose proof (Z.div_mod (rest2 k c) (60000000 * k) ltac:(lia)) as E2.
  pose proof (Z.div_mod (rest3 k c) (1000000 * k) ltac:(lia)) as E3.
  pose proof (Z.div_mod (rest4 k c) (1000 * k) ltac:(lia)) as E4.
  pose proof (Z.div_mod (rest5 k c) k ltac:(lia)) as E5.
  fold (rest1 k c) in E0. fold (rest2 k c) in E1. fold (rest3 k c) in E2.
  fold (rest4 k c) in E3. fold (rest5 k c) in E4. fold (rest6 k c) in E5.
  unfold reassemble_ns, split_closed_form; cbn [d h m s ms us ns].
  revert E0 E1 E2 E3 E4 E5.
  generalize (c / (86400000000 * k)) (rest1 k c / (3600000000 * k))
    (rest2 k c / (60000000 * k)) (rest3 k c / (1000000 * k))
    (rest4 k c / (1000 * k)) (rest5 k c / k).
  generalize (rest1 k c) (rest2 k c) (rest3 k c) (rest4 k c) (rest5 k c) (rest6 k c).
  intros r1 r2 r3 r4 r5 r6 qd qh qm qs qms qus E0 E1 E2 E3 E4 E5.
  replace (c * 1000)
    with ((qd * 86400000000000 + qh * 3600000000000 + qm * 60000000000
           + qs * 1000000000 + qms * 1000000 + qus * 1000) * k + r6 * 1000)
    by (rewrite E0, E1, E2, E3, E4, E5; ring).
  rewrite Z.div_add_l by lia. reflexivity.
Qed.

Lemma truncate_accepted (P : ratio) (k c : Z) :
  0 < k -> 0 <= c -> num P = 1 -> den P = 1000000 * k ->
  truncate_to_ns P c = c * 1000 / k.
Proof.
  intros Hk Hc Hn Hd. unfold truncate_to_ns, truncate_to.
  change (num nano) with 1. change (den nano) with 1000000000.
  rewrite Hn, Hd.
  rewrite Z.quot_div_nonneg by lia.
  replace (c * (1 * 1000000000)) with (1000000 * (c * 1000)) by ring.
  replace (1000000 * k * 1) with (1000000 * k) by ring.
  apply Z.div_mul_cancel_l; lia.
Qed.

(** C1. For an accepted period and a non-negative duration, the
    decomposition is defined, and its seven fields, each multiplied by the
    length of its unit, add up to the duration truncated to whole
    nanoseconds. *)
Theorem split_reassembles (P : ratio) (c : Z) :
  ProcessTiming.SplitTimeElements_ok P = true ->
  0 <= c <= intmax_max ->
  exists te,
    ProcessTiming.SplitTimeElements P c = Some te
    /\ reassemble_ns te = truncate_to_ns P c.
Proof.
  intros Hok Hc.
  destruct (SplitTimeElements_accepted P c Hok Hc) as (k & Hk & Hn & Hd & E).
  exists (split_closed_form k c). split; [exact E |].
  rewrite closed_form_reassemble by assumption.
  symmetry. apply truncate_accepted; lia.
Qed.

Lemma split_reassembles_witness :
  exists te,
    ProcessTiming.SplitTimeElements (mkRatio 1 3000000) 7 = Some te
    /\ reassemble_ns te = 2333.
Proof.
  apply (split_reassembles (mkRatio 1 3000000) 7).
  - vm_compute. reflexivity.
  - unfold intmax_max. lia.
Defined.

(** C2. For an accepted period and a non-negative duration, the fields
    of the decomposition are within their bounds: hours below 24, minutes
    and seconds below 60, milli-, micro- and nanoseconds below 1000, none
    negative; days only non-negative. *)
Theorem split_in_bounds (P : ratio) (c : Z) :
  ProcessTiming.SplitTimeElements_ok P = true ->
  0 <= c <= intmax_max ->
  exists te,
    ProcessTiming.SplitTimeElements P c = Some te /\ in_bounds te.
Proof.
  intros Hok Hc.
  destruct (SplitTimeElements_accepted P c Hok Hc) as (k & Hk & Hn & Hd & E).
  exists (split_closed_form k c). split; [exact E |].
  apply closed_form_in_bounds; lia.
Qed.

Lemma split_in_bounds_witness :
  exists te,
    ProcessTiming.SplitTimeElements nano 90061500250125 = Some te /\ in_bounds te.
Proof.
  apply (split_in_bounds nano 90061500250125).
  - vm_compute. reflexivity.
  - unfold intmax_max. lia.
Defined.

(** [truncate_to] is what [duration_cast] computes whenever the cast does
    not overflow: reducing the factor to lowest terms does not change the
    truncated quotient. *)
Lemma duration_cast_truncates (From To : ratio) (c v : Z) :
  rD From <> 0 -> 0 < num From -> rD To <> 0 -> 0 < num To ->
  duration_cast From To c = Some v -> v = truncate_to From To c.
Proof.
  intros HFnz HFnum HTnz HTnum.
  pose proof (den_pos From HFnz) as HFden. pose proof (den_pos To HTnz) as HTden.
  assert (HN : 0 < num From * den To) by (apply Z.mul_pos_pos; assumption).
  assert (HD : 0 < den From * num To) by (apply Z.mul_pos_pos; assumption).
  unfold duration_cast, truncate_to, ratio_divide.
  rewrite (num_of_pos (mkRatio _ _)), (den_of_pos (mkRatio _ _))
    by (cbn [rN rD]; lia).
  cbn [rN rD].
  revert HN HD. generalize (num From * den To) (den From * num To).
  intros N D HN HD.
  assert (Hg : 0 < Z.gcd N D).
  { pose proof (Z.gcd_nonneg N D).
    assert (Z.gcd N D <> 0) by (intro E; apply Z.gcd_eq_0_r in E; lia).
    lia. }
  destruct (Z.gcd_divide_l N D) as [n' Hn'].
  destruct (Z.gcd_divide_r N D) as [d' Hd'].
  revert Hg Hn' Hd'. generalize (Z.gcd N D).
  intros g Hg Hn' Hd'.
  rewrite Hn', Hd'. rewrite !Z.div_mul by lia.
  unfold checked. destruct (representable (c * n')); cbn [bind]; [| discriminate].
  intros E. inversion E.
  rewrite Z.mul_assoc. symmetry. apply Z.quot_mul_cancel_r; nia.
Qed.

(** The cast is defined as soon as the scaled count fits. *)
Lemma duration_cast_defined (From To : ratio) (c : Z) :
  intmax_min <= c * num (ratio_divide From To) <= intmax_max ->
  exists v, duration_cast From To c = Some v.
Proof.
  intros H. unfold duration_cast. rewrite checked_in_range by assumption.
  cbn [bind]. eauto.
Qed.

(** Zero ticks stay zero through every cast and subtraction, whatever
    the periods. *)
Lemma duration_cast_zero (From To : ratio) : duration_cast From To 0 = Some 0.
Proof.
  unfold duration_cast. rewrite Z.mul_0_l. change (checked 0) with (Some 0).
  cbn [bind]. reflexivity.
Qed.

Lemma minus_assign_zero (P U : ratio) : minus_assign P U 0 0 = Some 0.
Proof.
  unfold minus_assign. rewrite duration_cast_zero. reflexivity.
Qed.

Lemma SplitTimeElements_zero (P : ratio) :
  ProcessTiming.SplitTimeElements P 0 = Some (mkTimeElements 0 0 0 0 0 0 0).
Proof.
  unfold ProcessTiming.SplitTimeElements.
  repeat (rewrite duration_cast_zero; cbn [bind];
          try (rewrite minus_assign_zero; cbn [bind])).
  reflexivity.
Qed.

(** C5. A duration of zero renders as the empty string, at every
    resolution period; so does a stopwatch whose elapsed duration is
    zero. *)
Theorem zero_renders_empty (P : ratio) :
  ProcessTiming.TimeToString P 0 = Some ""%string
  /\ forall (clock_period : ratio) (clk : nat -> Z) (self : ProcessTiming) (w : nat),
       fst (elapsed clock_period clk P self w) = Some 0 ->
       fst (to_string clock_period clk P self w) = Some ""%string.
Proof.
  assert (Hz : ProcessTiming.TimeToString P 0 = Some ""%string).
  { unfold ProcessTiming.TimeToString. rewrite SplitTimeElements_zero.
    cbn [bind]. f_equal. now apply no_positive_count. }
  split; [exact Hz |].
  intros clock_period clk self w He.
  unfold to_string. destruct (elapsed clock_period clk P self w) as [r w'].
  cbn [fst] in *. subst r. exact Hz.
Qed.

(** C9. 90061500250125 ns at nanosecond resolution. *)
Theorem one_of_each_unit :
  ProcessTiming.TimeToString_ok nano = true
  /\ ProcessTiming.TimeToString nano 90061500250125
     = Some "1d.01h.01m.01s.500ms.250us.125ns."%string.
Proof.
  split; vm_compute; reflexivity.
Qed.

(** ** The stopwatch *)

Section StopwatchFacts.

Variable cp : ratio.
Variable clk : nat -> Z.

Lemma monotonic_le : monotonic clk -> forall n p, (n <= p)%nat -> clk n <= clk p.
Proof.
  intros Hm n p Hle. induction Hle as [|p Hle IH]; [lia |].
  specialize (Hm p). lia.
Qed.

(** Queries leave the fields alone and never move the world back. *)
Lemma exec_query (c : call) (self : ProcessTiming) (w : nat) :
  is_query c = true ->
  snd (fst (exec cp clk c self w)) = self /\ (w <= snd (exec cp clk c self w))%nat.
Proof.
  destruct c; cbn [is_query]; try discriminate; intros _; cbn [exec].
  - cbn. auto.
  - unfold getEndTime, now. destruct (_ongoing self); cbn; auto.
  - cbn. auto.
  - unfold elapsed, now. destruct (_ongoing self); cbn; auto.
  - unfold to_string, elapsed, now. destruct (_ongoing self); cbn; auto.
Qed.

(** On a monotonic clock a reachable stopwatch has its start before its
    end, and its end before every reading still to come. *)
Lemma reachable_ordered (self : ProcessTiming) (w : nat) :
  monotonic clk ->
  reachable cp clk self w ->
  _startTime self <= _endTime self
  /\ forall n, (w <= n)%nat -> _endTime self <= clk n.
Proof.
  intros Hm Hr. pose proof (monotonic_le Hm) as Hle.
  induction Hr as [w | c self w Hr [IH1 IH2]].
  - cbn. split; [lia |]. intros n Hn. apply Hle. lia.
  - destruct (is_query c) eqn:Hq.
    + destruct (exec_query c self w Hq) as [E Hw]. rewrite E.
      split; [exact IH1 |]. intros n Hn. apply IH2. lia.
    + destruct c; try discriminate; cbn.
      * split; [lia |]. intros n Hn. apply Hle. lia.
      * split; [apply Z.le_trans with (m := _endTime self); auto |].
        intros n Hn. apply Hle. lia.
Qed.

(** In the stopped state no call but [start()] and [stop()] touches the
    stopwatch or the clock. *)
Lemma exec_query_stopped (c : call) (self : ProcessTiming) (w : nat) :
  is_query c = true -> _ongoing self = false ->
  snd (fst (exec cp clk c self w)) = self /\ snd (exec cp clk c self w) = w.
Proof.
  intros Hq Hs.
  destruct c; cbn [is_query] in Hq; try discriminate; cbn [exec].
  - cbn. auto.
  - unfold getEndTime. rewrite Hs. cbn. auto.
  - cbn. auto.
  - unfold elapsed. rewrite Hs. cbn. auto.
  - unfold to_string, elapsed. rewrite Hs. cbn. auto.
Qed.

Lemma run_queries_stopped (qs : list call) (self : ProcessTiming) (w : nat) :
  forallb is_query qs = true -> _ongoing self = false ->
  snd (fst (run cp clk qs self w)) = self /\ snd (run cp clk qs self w) = w.
Proof.
  revert self w. induction qs as [|c qs IH]; intros self w Hq Hs; cbn [run].
  - cbn. auto.
  - cbn [forallb] in Hq. apply andb_true_iff in Hq as [Hc Hqs].
    destruct (exec_query_stopped c self w Hc Hs) as [E1 E2].
    destruct (exec cp clk c self w) as [[a self'] w']. cbn [fst snd] in E1, E2.
    subst self' w'.
    destruct (IH self w Hqs Hs) as [E3 E4].
    destruct (run cp clk qs self w) as [[l self''] w'']. cbn [fst snd] in *.
    auto.
Qed.

End StopwatchFacts.

(** The factor between two valid periods is positive. *)
Lemma cast_factor_pos (From To : ratio) :
  rD From <> 0 -> 0 < num From -> rD To <> 0 -> 0 < num To ->
  0 < num (ratio_divide From To).
Proof.
  intros HFnz HFnum HTnz HTnum.
  pose proof (den_pos From HFnz) as HFden. pose proof (den_pos To HTnz) as HTden.
  assert (HN : 0 < num From * den To) by (apply Z.mul_pos_pos; assumption).
  assert (HD : 0 < den From * num To) by (apply Z.mul_pos_pos; assumption).
  unfold ratio_divide.
  rewrite (num_of_pos (mkRatio _ _)) by (cbn [rN rD]; lia).
  cbn [rN rD]. apply Z.div_str_pos. split.
  - pose proof (Z.gcd_nonneg (num From * den To) (den From * num To)).
    assert (Z.gcd (num From * den To) (den From * num To) <> 0)
      by (intro E; apply Z.gcd_eq_0_r in E; lia).
    lia.
  - apply Z.divide_pos_le; [exact HN | apply Z.gcd_divide_l].
Qed.

(** C7. [elapsed] returns the span from the start to [now()] when the
    stopwatch runs, to the stored end when it does not, truncated to the
    requested resolution; on a monotonic clock the span and the returned
    duration are never negative. *)
Theorem elapsed_truncates_nonneg (cp : ratio) (clk : nat -> Z)
    (self : ProcessTiming) (w : nat) (P : ratio) :
  period_ok cp = true ->
  period_ok P = true ->
  let t := if _ongoing self then fst (now clk w) else _endTime self in
  let span := t - _startTime self in
  (forall v, fst (elapsed cp clk P self w) = Some v -> v = truncate_to cp P span)
  /\ (intmax_min <= span <= intmax_max ->
      intmax_min <= span * num (ratio_divide cp P) <= intmax_max ->
      fst (elapsed cp clk P self w) = Some (truncate_to cp P span))
  /\ (monotonic clk ->
      reachable cp clk self w ->
      0 <= span
      /\ (span * num (ratio_divide cp P) <= intmax_max ->
          fst (elapsed cp clk P self w) = Some (truncate_to cp P span))
      /\ (forall v, fst (elapsed cp clk P self w) = Some v -> 0 <= v)).
Proof.
  intros Hcp HP t span.
  unfold period_ok in Hcp, HP. rewrite !andb_true_iff in Hcp, HP.
  destruct Hcp as [[[Hcnz _] _] Hcnum]. destruct HP as [[[HPnz _] _] HPnum].
  apply negb_true_iff, Z.eqb_neq in Hcnz, HPnz. apply Z.ltb_lt in Hcnum, HPnum.
  pose proof (den_pos cp Hcnz) as Hcden. pose proof (den_pos P HPnz) as HPden.
  pose proof (cast_factor_pos cp P Hcnz Hcnum HPnz HPnum) as Hcf.
  assert (Hret : fst (elapsed cp clk P self w)
                 = (x <- time_diff t (_startTime self) ;; duration_cast cp P x)).
  { subst t. unfold elapsed. destruct (_ongoing self); reflexivity. }
  assert (Hval : forall v, fst (elapsed cp clk P self w) = Some v ->
                           v = truncate_to cp P span).
  { intros v Hv. rewrite Hret in Hv. unfold time_diff, checked in Hv.
    fold span in Hv. destruct (representable span); cbn [bind] in Hv;
      [| discriminate].
    now apply duration_cast_truncates in Hv. }
  assert (Hdef : intmax_min <= span <= intmax_max ->
                 intmax_min <= span * num (ratio_divide cp P) <= intmax_max ->
                 fst (elapsed cp clk P self w) = Some (truncate_to cp P span)).
  { intros Hsr Hfit.
    assert (Hex : exists v, fst (elapsed cp clk P self w) = Some v).
    { rewrite Hret. unfold time_diff. fold span.
      rewrite checked_in_range by exact Hsr. cbn [bind].
      now apply duration_cast_defined. }
    destruct Hex as [v Hv]. rewrite Hv. f_equal. now apply Hval. }
  split; [exact Hval |]. split; [exact Hdef |].
  intros Hm Hr.
  destruct (reachable_ordered cp clk self w Hm Hr) as [Hse Hend].
  assert (Hspan : 0 <= span).
  { subst span t. destruct (_ongoing self); cbn [now fst].
    - specialize (Hend w (le_n w)). lia.
    - lia. }
  assert (Hmin : intmax_min <= 0) by (unfold intmax_min; lia).
  split; [exact Hspan |]. split.
  - intros Hfit. apply Hdef; nia.
  - intros v Hv. apply Hval in Hv. subst v.
    unfold truncate_to. apply Z.quot_pos.
    + apply Z.mul_nonneg_nonneg; [exact Hspan |].
      apply Z.lt_le_incl, Z.mul_pos_pos; assumption.
    + apply Z.mul_pos_pos; assumption.
Qed.

Lemma elapsed_truncates_nonneg_witness :
  let clk := fun n => 1000 + 1500000 * Z.of_nat n in
  let running := fst (construct clk 0) in
  fst (elapsed nano clk milli running 1) = Some 1.
Proof.
  intros clk running.
  destruct (elapsed_truncates_nonneg nano clk running 1 milli eq_refl eq_refl)
    as (_ & _ & H).
  destruct H as (_ & H & _).
  - intros n. unfold clk. lia.
  - apply (reach_construct nano clk 0).
  - apply H. vm_compute. discriminate.
Defined.

(** C8. After [stop()], as long as neither [start()] nor [stop()] is
    called, [elapsed()] and [getEndTime()] return the same values however
    many other calls come in between: they do not read the clock, and
    what they return is fixed by the stored start and end. *)
Theorem stopped_results_stable (cp : ratio) (clk : nat -> Z)
    (self : ProcessTiming) (w : nat) (qs1 qs2 : list call) (P : ratio) :
  forallb is_query qs1 = true ->
  forallb is_query qs2 = true ->
  let stopped := fst (stop clk self w) in
  let w0 := snd (stop clk self w) in
  let first := run cp clk qs1 stopped w0 in
  let second := run cp clk qs2 (snd (fst first)) (snd first) in
  let s1 := snd (fst first) in
  let s2 := snd (fst second) in
  elapsed cp clk P s1 (snd first) = elapsed cp clk P s2 (snd second)
  /\ getEndTime clk s1 (snd first) = getEndTime clk s2 (snd second)
  /\ snd first = w0 /\ snd second = w0
  /\ snd (elapsed cp clk P s2 (snd second)) = w0
  /\ snd (getEndTime clk s2 (snd second)) = w0
  /\ fst (getEndTime clk s2 (snd second)) = _endTime stopped
  /\ fst (elapsed cp clk P s2 (snd second))
     = (x <- time_diff (_endTime stopped) (_startTime stopped) ;;
        duration_cast cp P x)
  /\ forall (clk' : nat -> Z) (w' : nat),
       fst (elapsed cp clk' P s2 w') = fst (elapsed cp clk P s2 (snd second))
       /\ fst (getEndTime clk' s2 w') = fst (getEndTime clk s2 (snd second)).
Proof.
  intros Hq1 Hq2 stopped w0 first second s1 s2.
  assert (Hs : _ongoing stopped = false) by reflexivity.
  destruct (run_queries_stopped cp clk qs1 stopped w0 Hq1 Hs) as [E1 W1].
  change (snd (fst first) = stopped) in E1. change (snd first = w0) in W1.
  assert (E2 : snd (fst second) = stopped /\ snd second = w0).
  { unfold second. rewrite E1, W1. apply run_queries_stopped; assumption. }
  destruct E2 as [E2 W2].
  unfold s1, s2. rewrite E1, E2, W1, W2.
  unfold elapsed, getEndTime. rewrite Hs. cbn [fst snd].
  repeat split; reflexivity.
Qed.

Lemma stopped_results_stable_witness :
  let clk := fun n => 1000 + 1500000 * Z.of_nat n in
  let running := fst (construct clk 0) in
  let stopped := fst (stop clk running 1) in
  let later := run nano clk [GetEndTime; ToString nano] stopped 2 in
  elapsed nano clk micro stopped 2
  = elapsed nano clk micro (snd (fst later)) (snd later).
Proof.
  intros clk running stopped later.
  destruct (stopped_results_stable nano clk running 1
              [] [GetEndTime; ToString nano] micro eq_refl eq_refl)
    as (H & _).
  exact H.
Defined.

(** * Further properties *)

(** ** SplitTimeElements on any representable count *)

Lemma den_nonneg (r : ratio) : 0 <= den r.
Proof.
  unfold den. apply Z_div_nonneg_nonneg; [apply Z.abs_nonneg | apply Z.gcd_nonneg].
Qed.

(** One step of the decomposition on any remainder: the field is the
    truncated quotient, [-=] leaves the remainder of the same sign. *)
Lemma split_step_any (P U : ratio) (f c : Z) :
  num (ratio_divide P U) = 1 -> den (ratio_divide P U) = f ->
  num (ratio_divide U P) = f -> den (ratio_divide U P) = 1 ->
  0 < f -> intmax_min <= c <= intmax_max ->
  duration_cast P U c = Some (Z.quot c f)
  /\ minus_assign P U c (Z.quot c f) = Some (Z.rem c f).
Proof.
  intros Hn Hd Hn' Hd' Hf Hc.
  assert (Hmin : intmax_min <= 0) by (unfold intmax_min; lia).
  assert (Hmax : 0 <= intmax_max) by (unfold intmax_max; lia).
  pose proof (Z.quot_rem' c f) as Hqr.
  assert (Hq : intmax_min <= Z.quot c f * f <= intmax_max
               /\ intmax_min <= c - Z.quot c f * f <= intmax_max).
  { destruct (Z.le_gt_cases 0 c) as [Hpos | Hneg].
    - pose proof (Z.mul_quot_le c f Hpos ltac:(lia)). lia.
    - pose proof (Z.mul_quot_ge c f ltac:(lia) ltac:(lia)). lia. }
  unfold minus_assign, duration_cast. rewrite Hn, Hd, Hn', Hd'.
  rewrite Z.mul_1_r. rewrite checked_in_range by lia. cbn [bind].
  split; [reflexivity |].
  rewrite checked_in_range by lia. cbn [bind].
  rewrite Z.quot_1_r. rewrite checked_in_range by lia.
  f_equal. lia.
Qed.

Section SplitAny.

Variable P : ratio.
Variable k : Z.
Hypothesis Pnum : num P = 1.
Hypothesis Pden : den P = 1000000 * k.
Hypothesis kpos : 0 < k.
Hypothesis Pmax : 86400 * den P <= intmax_max.

Lemma cast_nano_any (c : Z) :
  - k < c < k ->
  duration_cast P nano c = Some (Z.quot (c * 1000) k).
Proof.
  intros Hc. unfold duration_cast, ratio_divide.
  change (num nano) with 1. change (den nano) with 1000000000.
  rewrite Pnum, Pden.
  rewrite (num_of_pos (mkRatio _ _)), (den_of_pos (mkRatio _ _))
    by (cbn [rN rD]; lia).
  cbn [rN rD].
  replace (1 * 1000000000) with (1000000 * 1000) by reflexivity.
  replace (1000000 * k * 1) with (1000000 * k) by ring.
  rewrite Z.gcd_mul_mono_l_nonneg by lia.
  assert (Hg : 0 < Z.gcd 1000 k).
  { pose proof (Z.gcd_nonneg 1000 k).
    assert (Z.gcd 1000 k <> 0) by (intro E; apply Z.gcd_eq_0_r in E; lia). lia. }
  rewrite !Z.div_mul_cancel_l by lia.
  destruct (Z.gcd_divide_l 1000 k) as [n' Hn'].
  destruct (Z.gcd_divide_r 1000 k) as [k' Hk'].
  revert Hg Hn' Hk'. generalize (Z.gcd 1000 k). intros g Hg Hn' Hk'.
  assert (E1 : 1000 / g = n') by (rewrite Hn'; apply Z.div_mul; lia).
  assert (E2 : k / g = k') by (rewrite Hk'; apply Z.div_mul; lia).
  rewrite E1, E2.
  assert (Hk'pos : 0 < k') by nia.
  assert (Hn'pos : 0 < n') by nia.
  assert (Hn'le : n' <= 1000) by nia.
  assert (Hrange : intmax_min <= c * n' <= intmax_max).
  { rewrite Pden in Pmax. unfold intmax_max, intmax_min in *. nia. }
  rewrite checked_in_range by lia. cbn [bind]. f_equal.
  replace (c * 1000) with (c * n' * g) by (rewrite Hn'; ring).
  rewrite Hk'. now rewrite Z.quot_mul_cancel_r by lia.
Qed.

Variable c : Z.
Hypothesis crange : intmax_min <= c <= intmax_max.

Lemma trests_small :
  Z.abs (trest1 k c) < 86400000000 * k /\ Z.abs (trest2 k c) < 3600000000 * k
  /\ Z.abs (trest3 k c) < 60000000 * k /\ Z.abs (trest4 k c) < 1000000 * k
  /\ Z.abs (trest5 k c) < 1000 * k /\ Z.abs (trest6 k c) < k.
Proof.
  unfold trest6, trest5, trest4, trest3, trest2, trest1.
  repeat split;
    match goal with
    | |- Z.abs (Z.rem ?a ?b) < _ =>
        pose proof (Z.rem_bound_abs a b ltac:(lia)); lia
    end.
Qed.

Lemma SplitTimeElements_any :
  ProcessTiming.SplitTimeElements P c = Some (split_truncated_form k c).
Proof.
  pose proof trests_small as (B1 & B2 & B3 & B4 & B5 & B6).
  assert (Hlim : 86400000000 * k <= intmax_max) by lia.
  assert (Hmin : intmax_min = - intmax_max - 1) by reflexivity.
  destruct (factors_days P k Pnum Pden kpos) as (Fd1 & Fd2 & Fd3 & Fd4).
  destruct (factors_hours P k Pnum Pden kpos) as (Fh1 & Fh2 & Fh3 & Fh4).
  destruct (factors_minutes P k Pnum Pden kpos) as (Fm1 & Fm2 & Fm3 & Fm4).
  destruct (factors_seconds P k Pnum Pden kpos) as (Fs1 & Fs2 & Fs3 & Fs4).
  destruct (factors_milli P k Pnum Pden kpos) as (Fms1 & Fms2 & Fms3 & Fms4).
  destruct (factors_micro P k Pnum Pden kpos) as (Fus1 & Fus2 & Fus3 & Fus4).
  destruct (split_step_any P days_period _ c Fd1 Fd2 Fd3 Fd4) as [Cd Md]; try lia.
  destruct (split_step_any P hours_period _ (trest1 k c) Fh1 Fh2 Fh3 Fh4)
    as [Ch Mh]; try lia.
  destruct (split_step_any P minutes_period _ (trest2 k c) Fm1 Fm2 Fm3 Fm4)
    as [Cm Mm]; try lia.
  destruct (split_step_any P seconds_period _ (trest3 k c) Fs1 Fs2 Fs3 Fs4)
    as [Cs Ms]; try lia.
  destruct (split_step_any P milli _ (trest4 k c) Fms1 Fms2 Fms3 Fms4)
    as [Cms Mms]; try lia.
  destruct (split_step_any P micro _ (trest5 k c) Fus1 Fus2 Fus3 Fus4)
    as [Cus Mus]; try lia.
  fold (trest1 k c) in Md. fold (trest2 k c) in Mh. fold (trest3 k c) in Mm.
  fold (trest4 k c) in Ms. fold (trest5 k c) in Mms. fold (trest6 k c) in Mus.
  unfold ProcessTiming.SplitTimeElements.
  rewrite Cd; cbn [bind]. rewrite Md; cbn [bind].
  rewrite Ch; cbn [bind]. rewrite Mh; cbn [bind].
  rewrite Cm; cbn [bind]. rewrite Mm; cbn [bind].
  rewrite Cs; cbn [bind]. rewrite Ms; cbn [bind].
  rewrite Cms; cbn [bind]. rewrite Mms; cbn [bind].
  rewrite Cus; cbn [bind]. rewrite Mus; cbn [bind].
  rewrite cast_nano_any by lia.
  reflexivity.
Qed.

End SplitAny.

Lemma SplitTimeElements_accepted_any (P : ratio) (c : Z) :
  ProcessTiming.SplitTimeElements_ok P = true ->
  intmax_min <= c <= intmax_max ->
  exists k, 0 < k /\ num P = 1 /\ den P = 1000000 * k
    /\ ProcessTiming.SplitTimeElements P c = Some (split_truncated_form k c).
Proof.
  intros Hok Hc.
  destruct (SplitTimeElements_ok_shape P Hok) as (Hn & k & Hk & Hd & Hmax).
  exists k. repeat split; try assumption.
  now apply SplitTimeElements_any.
Qed.

(** On a non-negative count the truncated form is the closed form used
    before. *)
Lemma truncated_form_nonneg (k c : Z) :
  0 < k -> 0 <= c -> split_truncated_form k c = split_closed_form k c.
Proof.
  intros Hk Hc.
  assert (E1 : trest1 k c = rest1 k c)
    by (unfold trest1, rest1; apply Z.rem_mod_nonneg; lia).
  assert (B1 : 0 <= rest1 k c) by (apply Z.mod_pos_bound; lia).
  assert (E2 : trest2 k c = rest2 k c)
    by (unfold trest2, rest2; rewrite E1; apply Z.rem_mod_nonneg; lia).
  assert (B2 : 0 <= rest2 k c) by (apply Z.mod_pos_bound; lia).
  assert (E3 : trest3 k c = rest3 k c)
    by (unfold trest3, rest3; rewrite E2; apply Z.rem_mod_nonneg; lia).
  assert (B3 : 0 <= rest3 k c) by (apply Z.mod_pos_bound; lia).
  assert (E4 : trest4 k c = rest4 k c)
    by (unfold trest4, rest4; rewrite E3; apply Z.rem_mod_nonneg; lia).
  assert (B4 : 0 <= rest4 k c) by (apply Z.mod_pos_bound; lia).
  assert (E5 : trest5 k c = rest5 k c)
    by (unfold trest5, rest5; rewrite E4; apply Z.rem_mod_nonneg; lia).
  assert (B5 : 0 <= rest5 k c) by (apply Z.mod_pos_bound; lia).
  assert (E6 : trest6 k c = rest6 k c)
    by (unfold trest6, rest6; rewrite E5; apply Z.rem_mod_nonneg; lia).
  assert (B6 : 0 <= rest6 k c) by (apply Z.mod_pos_bound; lia).
  unfold split_truncated_form, split_closed_form.
  rewrite E1, E2, E3, E4, E5, E6.
  rewrite !Z.quot_div_nonneg by lia. reflexivity.
Qed.

(** Changing the sign of the count changes the sign of every field. *)
Lemma truncated_form_opp (k c : Z) :
  0 < k -> split_truncated_form k (- c) = negate (split_truncated_form k c).
Proof.
  intros Hk.
  assert (E1 : trest1 k (- c) = - trest1 k c)
    by (unfold trest1; apply Z.rem_opp_l').
  assert (E2 : trest2 k (- c) = - trest2 k c)
    by (unfold trest2; rewrite E1; apply Z.rem_opp_l').
  assert (E3 : trest3 k (- c) = - trest3 k c)
    by (unfold trest3; rewrite E2; apply Z.rem_opp_l').
  assert (E4 : trest4 k (- c) = - trest4 k c)
    by (unfold trest4; rewrite E3; apply Z.rem_opp_l').
  assert (E5 : trest5 k (- c) = - trest5 k c)
    by (unfold trest5; rewrite E4; apply Z.rem_opp_l').
  assert (E6 : trest6 k (- c) = - trest6 k c)
    by (unfold trest6; rewrite E5; apply Z.rem_opp_l').
  unfold split_truncated_form, negate; cbn [d h m s ms us ns].
  rewrite E1, E2, E3, E4, E5, E6.
  rewrite Z.mul_opp_l.
  rewrite !Z.quot_opp_l by lia. reflexivity.
Qed.

Lemma reassemble_negate (te : TimeElements) :
  reassemble_ns (negate te) = - reassemble_ns te.
Proof.
  unfold reassemble_ns, negate; cbn [d h m s ms us ns]. ring.
Qed.

Lemma truncated_form_reassemble (k c : Z) :
  0 < k -> reassemble_ns (split_truncated_form k c) = Z.quot (c * 1000) k.
Proof.
  intros Hk. destruct (Z.le_gt_cases 0 c) as [Hpos | Hneg].
  - rewrite truncated_form_nonneg, closed_form_reassemble by assumption.
    symmetry. apply Z.quot_div_nonneg; lia.
  - assert (E : exists c', 0 <= c' /\ c = - c') by (exists (- c); lia).
    destruct E as (c' & Hc' & ->).
    rewrite truncated_form_opp, reassemble_negate by assumption.
    rewrite truncated_form_nonneg, closed_form_reassemble by lia.
    rewrite Z.mul_opp_l, Z.quot_opp_l by lia.
    f_equal. symmetry. apply Z.quot_div_nonneg; lia.
Qed.

Lemma truncate_accepted_any (P : ratio) (k c : Z) :
  0 < k -> num P = 1 -> den P = 1000000 * k ->
  truncate_to_ns P c = Z.quot (c * 1000) k.
Proof.
  intros Hk Hn Hd. unfold truncate_to_ns, truncate_to.
  change (num nano) with 1. change (den nano) with 1000000000.
  rewrite Hn, Hd.
  replace (c * (1 * 1000000000)) with (1000000 * (c * 1000)) by ring.
  replace (1000000 * k * 1) with (1000000 * k) by ring.
  apply Z.quot_mul_cancel_l; lia.
Qed.

Lemma negate_in_bounds (te : TimeElements) :
  in_bounds te -> in_negative_bounds (negate te).
Proof.
  unfold in_bounds, in_negative_bounds, negate; cbn [d h m s ms us ns]. lia.
Qed.

(** X1. For an accepted period the decomposition never overflows, whatever
    the sign of the count, and its fields always add up to the duration
    truncated toward zero to whole nanoseconds. *)
Theorem split_total_reassembles (P : ratio) (c : Z) :
  ProcessTiming.SplitTimeElements_ok P = true ->
  intmax_min <= c <= intmax_max ->
  exists te,
    ProcessTiming.SplitTimeElements P c = Some te
    /\ reassemble_ns te = truncate_to_ns P c.
Proof.
  intros Hok Hc.
  destruct (SplitTimeElements_accepted_any P c Hok Hc) as (k & Hk & Hn & Hd & E).
  exists (split_truncated_form k c). split; [exact E |].
  rewrite truncated_form_reassemble by assumption.
  symmetry. now apply truncate_accepted_any.
Qed.

Lemma split_total_reassembles_witness :
  exists te,
    ProcessTiming.SplitTimeElements (mkRatio 1 3000000) (- 2 ^ 63) = Some te
    /\ reassemble_ns te = -3074457345618258602666.
Proof.
  apply (split_total_reassembles (mkRatio 1 3000000) (- 2 ^ 63)).
  - vm_compute. reflexivity.
  - unfold intmax_min, intmax_max. lia.
Defined.

(** X2. The decomposition is odd: the elements of [-c] are the elements
    of [c] with every sign changed. *)
Theorem split_odd (P : ratio) (c : Z) :
  ProcessTiming.SplitTimeElements_ok P = true ->
  intmax_min <= c <= intmax_max ->
  intmax_min <= - c <= intmax_max ->
  ProcessTiming.SplitTimeElements P (- c)
  = option_map negate (ProcessTiming.SplitTimeElements P c).
Proof.
  intros Hok Hc Hc'.
  destruct (SplitTimeElements_ok_shape P Hok) as (Hn & k & Hk & Hd & Hmax).
  rewrite (SplitTimeElements_any P k Hn Hd Hk Hmax c Hc).
  rewrite (SplitTimeElements_any P k Hn Hd Hk Hmax (- c) Hc').
  cbn [option_map]. f_equal. now apply truncated_form_opp.
Qed.

Lemma split_odd_witness :
  ProcessTiming.SplitTimeElements nano (- 90061500250125)
  = Some (mkTimeElements (-1) (-1) (-1) (-1) (-500) (-250) (-125)).
Proof.
  refine (split_odd nano 90061500250125 eq_refl _ _);
    unfold intmax_min, intmax_max; lia.
Defined.

Lemma truncated_form_negative_bounds (k c : Z) :
  0 < k -> c <= 0 -> in_negative_bounds (split_truncated_form k c).
Proof.
  intros Hk Hc.
  assert (E : exists c', 0 <= c' /\ c = - c') by (exists (- c); lia).
  destruct E as (c' & Hc' & ->).
  rewrite truncated_form_opp by assumption.
  apply negate_in_bounds.
  rewrite truncated_form_nonneg by lia.
  apply closed_form_in_bounds; lia.
Qed.

Lemma negative_bounds_render_empty (P : ratio) (te : TimeElements) :
  in_negative_bounds te ->
  ProcessTiming.TimeElementsToString P te = ""%string.
Proof.
  intros (Bd & Bh & Bm & Bs & Bms & Bus & Bns).
  apply no_positive_count.
  cbn [rows existsb u_count].
  repeat match goal with
  | |- context [?x >? 0] =>
      replace (x >? 0) with false by (symmetry; rewrite Z.gtb_ltb; apply Z.ltb_ge; lia)
  end.
  reflexivity.
Qed.

(** X3. The elements of a duration that is negative or zero are all
    negative or zero, and as small in magnitude as those of a positive
    one: hours above -24, minutes and seconds above -60, the three finest
    units above -1000. *)
Theorem split_negative_bounds (P : ratio) (c : Z) :
  ProcessTiming.SplitTimeElements_ok P = true ->
  intmax_min <= c <= 0 ->
  exists te,
    ProcessTiming.SplitTimeElements P c = Some te /\ in_negative_bounds te.
Proof.
  intros Hok Hc.
  assert (Hmax : 0 <= intmax_max) by (unfold intmax_max; lia).
  destruct (SplitTimeElements_accepted_any P c Hok ltac:(lia))
    as (k & Hk & Hn & Hd & E).
  exists (split_truncated_form k c). split; [exact E |].
  apply truncated_form_negative_bounds; lia.
Qed.

Lemma split_negative_bounds_witness :
  exists te,
    ProcessTiming.SplitTimeElements micro (- 2 ^ 63) = Some te
    /\ in_negative_bounds te.
Proof.
  apply (split_negative_bounds micro (- 2 ^ 63)).
  - vm_compute. reflexivity.
  - unfold intmax_min. lia.
Defined.

(** X4. A duration that is negative or zero is converted to the empty
    string: none of its elements is positive, so nothing activates. *)
Theorem negative_renders_empty (P : ratio) (c : Z) :
  ProcessTiming.SplitTimeElements_ok P = true ->
  intmax_min <= c <= 0 ->
  ProcessTiming.TimeToString P c = Some ""%string.
Proof.
  intros Hok Hc.
  assert (Hmax : 0 <= intmax_max) by (unfold intmax_max; lia).
  destruct (SplitTimeElements_accepted_any P c Hok ltac:(lia))
    as (k & Hk & Hn & Hd & E).
  unfold ProcessTiming.TimeToString. rewrite E. cbn [bind]. f_equal.
  apply negative_bounds_render_empty.
  apply truncated_form_negative_bounds; lia.
Qed.

Lemma negative_renders_empty_witness :
  ProcessTiming.TimeToString nano (- 90061500250125) = Some ""%string.
Proof.
  apply (negative_renders_empty nano (- 90061500250125)).
  - reflexivity.
  - unfold intmax_min. lia.
Defined.

(** ** More on the renderer *)

Lemma existsb_firstn_mono {A : Type} (f : A -> bool) (l : list A) (i j : nat) :
  (i <= j)%nat -> existsb f (firstn i l) = true -> existsb f (firstn j l) = true.
Proof.
  revert i j. induction l as [|a l IH]; intros i j Hle H.
  - rewrite firstn_nil in H. discriminate.
  - destruct i as [|i]; [discriminate |].
    destruct j as [|j]; [lia |].
    cbn [firstn existsb] in *. apply orb_true_iff in H as [H | H].
    + now rewrite H.
    + rewrite (IH i j) by (lia || assumption). apply orb_true_r.
Qed.

(** [activate] is never cleared again. *)
Lemma activate_at_mono (P : ratio) (te : TimeElements) (i j : nat) :
  (i <= j)%nat -> activate_at P te i = true -> activate_at P te j = true.
Proof.
  intros Hle. rewrite !activate_at_existsb.
  apply existsb_firstn_mono. lia.
Qed.

Lemma nth_error_lt {A : Type} (l : list A) (k : nat) (a : A) :
  nth_error l k = Some a -> (k < List.length l)%nat.
Proof.
  intros H. apply nth_error_Some. rewrite H. discriminate.
Qed.

Lemma nth_error_rows_lt (te : TimeElements) (k : nat) (u : unit_row) :
  nth_error (rows te) k = Some u -> (k < 7)%nat.
Proof.
  intros H. apply nth_error_lt in H. exact H.
Qed.

Lemma rows_defined (te : TimeElements) (k : nat) :
  (k < 7)%nat -> exists u, nth_error (rows te) k = Some u.
Proof.
  intros H.
  destruct k as [|[|[|[|[|[|[|k]]]]]]]; try lia; eexists; reflexivity.
Qed.

(** The rows go from coarse to fine: a period that is at most the period
    of a unit is at most the period of the unit before it. *)
Lemma period_le_previous (P : ratio) (te : TimeElements) (k : nat) (u u' : unit_row) :
  nth_error (rows te) k = Some u ->
  nth_error (rows te) (S k) = Some u' ->
  period_le P (u_period u') -> period_le P (u_period u).
Proof.
  intros Hu Hu'. unfold period_le.
  pose proof (den_nonneg P) as Hd.
  destruct k as [|[|[|[|[|[|k]]]]]];
    cbn in Hu, Hu'; try discriminate;
    try (injection Hu as <-; injection Hu' as <-; cbn [u_period]).
  - change (num hours_period) with 3600. change (den hours_period) with 1.
    change (num days_period) with 86400. change (den days_period) with 1. lia.
  - change (num hours_period) with 3600. change (den hours_period) with 1.
    change (num minutes_period) with 60. change (den minutes_period) with 1. lia.
  - change (num seconds_period) with 1. change (den seconds_period) with 1.
    change (num minutes_period) with 60. change (den minutes_period) with 1. lia.
  - change (num seconds_period) with 1. change (den seconds_period) with 1.
    change (num milli) with 1. change (den milli) with 1000. lia.
  - change (num micro) with 1. change (den micro) with 1000000.
    change (num milli) with 1. change (den milli) with 1000. lia.
  - change (num micro) with 1. change (den micro) with 1000000.
    change (num nano) with 1. change (den nano) with 1000000000. lia.
  - destruct k; discriminate.
Qed.

Lemma period_le_coarser (P : ratio) (te : TimeElements) (j k : nat) (uj uk : unit_row) :
  (j <= k)%nat ->
  nth_error (rows te) j = Some uj ->
  nth_error (rows te) k = Some uk ->
  period_le P (u_period uk) -> period_le P (u_period uj).
Proof.
  intros Hle. revert uk. induction Hle as [|k Hle IH]; intros uk Hj Hk Hc.
  - congruence.
  - assert (Hlt : (k < 7)%nat) by (apply nth_error_rows_lt in Hk; lia).
    destruct (rows_defined te k Hlt) as [u Hu].
    apply (IH u Hj Hu). exact (period_le_previous P te k u uk Hu Hk Hc).
Qed.

(** Where no comparison overflows, whoever admits a unit admits every
    coarser one. *)
Lemma candidate_coarser (P : ratio) (te : TimeElements) (j k : nat) (uj uk : unit_row) :
  ProcessTiming.TimeElementsToString_ok P = true ->
  (j <= k)%nat ->
  nth_error (rows te) j = Some uj ->
  nth_error (rows te) k = Some uk ->
  candidate P uk = true -> candidate P uj = true.
Proof.
  intros Hok Hle Hj Hk Hc.
  apply (candidate_exact P uj (rows_period_ok P te j uj Hok Hj)).
  apply (period_le_coarser P te j k uj uk Hle Hj Hk).
  now apply (candidate_exact P uk (rows_period_ok P te k uk Hok Hk)).
Qed.

Lemma append_empty_iff (x y : string) :
  (x ++ y)%string = ""%string <-> x = ""%string /\ y = ""%string.
Proof.
  split.
  - destruct x; cbn; [auto | discriminate].
  - intros [-> ->]. reflexivity.
Qed.

Lemma length_append (x y : string) :
  String.length (x ++ y) = (String.length x + String.length y)%nat.
Proof.
  induction x as [|a x IH]; cbn; [reflexivity | now rewrite IH].
Qed.

Lemma unit_text_nonempty (te : TimeElements) (k : nat) (u : unit_row) :
  nth_error (rows te) k = Some u -> unit_text u <> ""%string.
Proof.
  intros Hu E. unfold unit_text in E. apply append_empty_iff in E as [_ E].
  destruct k as [|[|[|[|[|[|[|k]]]]]]]; cbn in Hu;
    try (injection Hu as <-; discriminate).
  destruct k; discriminate.
Qed.

Lemma piece_empty_iff (P : ratio) (te : TimeElements) (k : nat) :
  piece P te k = ""%string <-> printed P te k = false.
Proof.
  split; [| apply piece_not_printed].
  unfold piece. destruct (nth_error (rows te) k) as [u|] eqn:Hu.
  - destruct (printed P te k); [| reflexivity].
    intros E. now apply unit_text_nonempty with (te := te) (k := k) in E.
  - unfold printed. now rewrite Hu.
Qed.

(** X5. What is printed, exactly, for an origin period for which none of
    the seven comparisons overflows: a unit is printed if and only if the
    origin period is at most its period and it, or a unit before it, has
    a positive count.  In particular the units before the first positive
    one are left out. *)
Theorem printed_iff (P : ratio) (te : TimeElements) (k : nat) :
  ProcessTiming.TimeElementsToString_ok P = true ->
  printed P te k = true
  <-> exists u, nth_error (rows te) k = Some u
        /\ period_le P (u_period u)
        /\ exists i ui, (i <= k)%nat
             /\ nth_error (rows te) i = Some ui /\ 0 < u_count ui.
Proof.
  intros Hok. unfold printed. split.
  - destruct (nth_error (rows te) k) as [u|] eqn:Hu; [| discriminate].
    intros H. apply andb_true_iff in H as [Hc Ha].
    exists u. split; [reflexivity |]. split.
    { now apply (candidate_exact P u (rows_period_ok P te k u Hok Hu)). }
    rewrite activate_at_existsb in Ha. apply existsb_exists in Ha as (ui & Hin & Hpos).
    apply In_nth_error in Hin as [i Hi].
    exists i, ui.
    assert (Hlt : (i < S k)%nat).
    { apply nth_error_lt in Hi. rewrite length_firstn in Hi. lia. }
    rewrite nth_error_firstn in Hi.
    destruct (Nat.ltb_spec i (S k)); [| lia].
    apply Z.gtb_lt in Hpos.
    repeat split; try assumption; lia.
  - intros (u & Hu & Hc & i & ui & Hle & Hi & Hpos).
    rewrite Hu.
    rewrite (proj2 (candidate_exact P u (rows_period_ok P te k u Hok Hu)) Hc).
    cbn [andb].
    rewrite activate_at_existsb. apply existsb_exists. exists ui. split.
    + apply nth_error_In with (n := i). rewrite nth_error_firstn.
      destruct (Nat.ltb_spec i (S k)); [assumption | lia].
    + apply Z.gtb_lt. lia.
Qed.

Lemma printed_iff_witness :
  printed milli (mkTimeElements 0 0 2 0 0 0 0) 4 = true
  /\ printed milli (mkTimeElements 0 0 2 0 0 0 0) 1 = false.
Proof.
  pose proof (printed_iff milli (mkTimeElements 0 0 2 0 0 0 0) 4 eq_refl) as H4.
  pose proof (printed_iff milli (mkTimeElements 0 0 2 0 0 0 0) 1 eq_refl) as H1.
  split.
  - apply H4. eexists. split; [reflexivity |]. split.
    + unfold period_le. vm_compute. discriminate.
    + exists 2%nat. eexists. split; [lia |]. split; [reflexivity |]. cbn. lia.
  - apply not_true_iff_false. intros E.
    apply H1 in E. destruct E as (u & _ & _ & i & ui & Hle & Hi & Hpos).
    destruct i as [|[|i]]; cbn in Hi; try lia;
      injection Hi as <-; cbn in Hpos; lia.
Defined.

(** X6. No gaps, for an origin period for which none of the seven
    comparisons overflows: the printed units are consecutive.  Between two
    printed units every unit is printed. *)
Theorem printed_contiguous (P : ratio) (te : TimeElements) (i j k : nat) :
  ProcessTiming.TimeElementsToString_ok P = true ->
  (i <= j)%nat -> (j <= k)%nat ->
  printed P te i = true -> printed P te k = true -> printed P te j = true.
Proof.
  intros Hok Hij Hjk Hi Hk. unfold printed in *.
  destruct (nth_error (rows te) i) as [ui|] eqn:Hui; [| discriminate].
  destruct (nth_error (rows te) k) as [uk|] eqn:Huk; [| discriminate].
  apply andb_true_iff in Hi as [_ Hai]. apply andb_true_iff in Hk as [Hck _].
  assert (Hlt : (j < 7)%nat) by (apply nth_error_rows_lt in Huk; lia).
  destruct (rows_defined te j Hlt) as [uj Huj]. rewrite Huj.
  rewrite (candidate_coarser P te j k uj uk Hok Hjk Huj Huk Hck).
  now rewrite (activate_at_mono P te i j Hij Hai).
Qed.

Lemma printed_contiguous_witness :
  printed micro (mkTimeElements 0 0 1 0 0 7 0) 3 = true.
Proof.
  apply (printed_contiguous micro (mkTimeElements 0 0 1 0 0 7 0) 2 3 5).
  - reflexivity.
  - lia.
  - lia.
  - reflexivity.
  - reflexivity.
Defined.

(** With an overflowing comparison the printed units can have a gap: at a
    period of [1/(3*10^15)] seconds the days and the minutes are printed
    and the hours between them are not. *)
Example gap_on_overflow :
  ProcessTiming.TimeElementsToString (mkRatio 1 3000000000000000)
    (mkTimeElements 1 1 1 1 1 1 1)
  = "1d.01m.01s.001ms.001us.001ns."%string.
Proof. vm_compute. reflexivity. Qed.

(** X7. The output is empty exactly when no unit is printed. *)
Theorem empty_iff_nothing_printed (P : ratio) (te : TimeElements) :
  ProcessTiming.TimeElementsToString P te = ""%string
  <-> forall k, printed P te k = false.
Proof.
  rewrite TimeElementsToString_pieces. split.
  - intros E k.
    repeat (apply append_empty_iff in E as [?E E]).
    destruct k as [|[|[|[|[|[|[|k]]]]]]];
      try (now apply piece_empty_iff).
    unfold printed. cbn. now destruct k.
  - intros H.
    rewrite !(proj2 (piece_empty_iff P te _) (H _)). reflexivity.
Qed.

(** A property of every integer below [N], by running through them. *)
Lemma below_check (f : Z -> bool) (N : nat) :
  forallb f (map Z.of_nat (seq 0 N)) = true ->
  forall n, 0 <= n < Z.of_nat N -> f n = true.
Proof.
  intros H n Hn. rewrite forallb_forall in H. apply H.
  apply in_map_iff. exists (Z.to_nat n). split; [lia |].
  apply in_seq. lia.
Qed.

Lemma put2_width (n : Z) : 0 <= n < 100 -> String.length (put 2 n) = 2%nat.
Proof.
  intros H. apply Nat.eqb_eq.
  apply (below_check (fun n => Nat.eqb (String.length (put 2 n)) 2) 100).
  - vm_compute. reflexivity.
  - change (Z.of_nat 100) with 100. exact H.
Qed.

Lemma put3_width (n : Z) : 0 <= n < 1000 -> String.length (put 3 n) = 3%nat.
Proof.
  intros H. apply Nat.eqb_eq.
  apply (below_check (fun n => Nat.eqb (String.length (put 3 n)) 3) 1000).
  - vm_compute. reflexivity.
  - change (Z.of_nat 1000) with 1000. exact H.
Qed.

(** X8. Fixed-width fields.  For elements within their bounds, every
    printed unit other than the days takes exactly its field width plus
    its label: two digits for hours, minutes and seconds, three for
    milli-, micro- and nanoseconds. *)
Theorem printed_fields_fixed_width (P : ratio) (te : TimeElements)
    (k : nat) (u : unit_row) :
  in_bounds te ->
  nth_error (rows te) k = Some u ->
  (1 <= k)%nat ->
  printed P te k = true ->
  String.length (piece P te k)
  = (u_width u + String.length (u_label u))%nat.
Proof.
  intros (Bd & Bh & Bm & Bs & Bms & Bus & Bns) Hu Hk Hp.
  unfold piece. rewrite Hu, Hp. unfold unit_text. rewrite length_append.
  f_equal.
  destruct k as [|[|[|[|[|[|[|k]]]]]]]; try lia;
    cbn in Hu; try (injection Hu as <-; cbn [u_width u_count]).
  - apply put2_width. lia.
  - apply put2_width. lia.
  - apply put2_width. lia.
  - apply put3_width. lia.
  - apply put3_width. lia.
  - apply put3_width. lia.
  - destruct k; discriminate.
Qed.

Lemma printed_fields_fixed_width_witness :
  String.length (piece nano (mkTimeElements 3 0 7 0 0 42 0) 5) = 6%nat.
Proof.
  refine (printed_fields_fixed_width nano (mkTimeElements 3 0 7 0 0 42 0) 5
            (mkRow micro 3 "us." 42) _ eq_refl _ eq_refl).
  - unfold in_bounds; cbn; lia.
  - lia.
Defined.

(** The periods [SplitTimeElements] accepts are short enough for all
    seven comparisons to be exact. *)
Lemma accepted_comparisons_exact (P : ratio) :
  ProcessTiming.SplitTimeElements_ok P = true ->
  ProcessTiming.TimeElementsToString_ok P = true.
Proof.
  intros Hok.
  destruct (SplitTimeElements_ok_shape P Hok) as (Hn & k & Hk & Hd & Hmax).
  unfold ProcessTiming.TimeElementsToString_ok, ratio_less_ok. cbn [forallb].
  change (num days_period) with 86400. change (den days_period) with 1.
  change (num hours_period) with 3600. change (den hours_period) with 1.
  change (num minutes_period) with 60. change (den minutes_period) with 1.
  change (num seconds_period) with 1. change (den seconds_period) with 1.
  change (num milli) with 1. change (den milli) with 1000.
  change (num micro) with 1. change (den micro) with 1000000.
  change (num nano) with 1. change (den nano) with 1000000000.
  rewrite Hn, Hd. rewrite Hd in Hmax.
  assert (Hrep : forall z, 0 <= z <= 86400 * (1000000 * k) -> representable z = true).
  { intros z Hz. apply representable_iff. unfold intmax_min. lia. }
  rewrite !Hrep by lia. reflexivity.
Qed.

(** For an accepted period every unit down to the microseconds is a
    candidate. *)
Lemma micro_candidate (P : ratio) (te : TimeElements) :
  ProcessTiming.SplitTimeElements_ok P = true ->
  candidate P (mkRow micro 3 "us." (us te)) = true.
Proof.
  intros Hok.
  destruct (SplitTimeElements_ok_shape P Hok) as (Hn & k & Hk & Hd & Hmax).
  apply candidate_exact.
  - apply (rows_period_ok P te 5 _ (accepted_comparisons_exact P Hok) eq_refl).
  - unfold period_le. cbn [u_period].
    change (num micro) with 1. change (den micro) with 1000000.
    rewrite Hn, Hd. lia.
Qed.

(** X20. Through [TimeToString] the comparisons are always exact: for
    every period [SplitTimeElements] accepts, none of the seven products
    overflows, and a unit is a candidate exactly when the origin period is
    at most its period. *)
Theorem accepted_candidates_exact (P : ratio) (te : TimeElements)
    (k : nat) (u : unit_row) :
  ProcessTiming.SplitTimeElements_ok P = true ->
  nth_error (rows te) k = Some u ->
  ProcessTiming.TimeElementsToString_ok P = true
  /\ (candidate P u = true <-> period_le P (u_period u)).
Proof.
  intros Hok Hu.
  pose proof (accepted_comparisons_exact P Hok) as Hex.
  split; [exact Hex |].
  apply candidate_exact. exact (rows_period_ok P te k u Hex Hu).
Qed.

Lemma accepted_candidates_exact_witness :
  candidate micro (mkRow nano 3 "ns." 5) = false.
Proof.
  destruct (accepted_candidates_exact micro (mkTimeElements 0 0 0 0 0 0 5) 6 _
              eq_refl eq_refl) as [_ H].
  apply not_true_iff_false. intros E. apply H in E.
  unfold period_le in E. vm_compute in E. apply E. reflexivity.
Defined.

(** The count, rebuilt from the six coarser fields and what is left for
    the nanoseconds. *)
Lemma closed_form_ticks (k c : Z) :
  0 < k ->
  c = (d (split_closed_form k c) * 86400000000
       + h (split_closed_form k c) * 3600000000
       + m (split_closed_form k c) * 60000000
       + s (split_closed_form k c) * 1000000
       + ms (split_closed_form k c) * 1000
       + us (split_closed_form k c)) * k + rest6 k c.
Proof.
  intros Hk.
  pose proof (Z.div_mod c (86400000000 * k) ltac:(lia)) as E0.
  pose proof (Z.div_mod (rest1 k c) (3600000000 * k) ltac:(lia)) as E1.
  pose proof (Z.div_mod (rest2 k c) (60000000 * k) ltac:(lia)) as E2.
  pose proof (Z.div_mod (rest3 k c) (1000000 * k) ltac:(lia)) as E3.
  pose proof (Z.div_mod (rest4 k c) (1000 * k) ltac:(lia)) as E4.
  pose proof (Z.div_mod (rest5 k c) k ltac:(lia)) as E5.
  fold (rest1 k c) in E0. fold (rest2 k c) in E1. fold (rest3 k c) in E2.
  fold (rest4 k c) in E3. fold (rest5 k c) in E4. fold (rest6 k c) in E5.
  unfold split_closed_form; cbn [d h m s ms us ns].
  revert E0 E1 E2 E3 E4 E5.
  generalize (c / (86400000000 * k)) (rest1 k c / (3600000000 * k))
    (rest2 k c / (60000000 * k)) (rest3 k c / (1000000 * k))
    (rest4 k c / (1000 * k)) (rest5 k c / k).
  generalize (rest1 k c) (rest2 k c) (rest3 k c) (rest4 k c) (rest5 k c) (rest6 k c).
  intros r1 r2 r3 r4 r5 r6 qd qh qm qs qms qus E0 E1 E2 E3 E4 E5.
  rewrite E0 at 1. rewrite E1, E2, E3, E4, E5. ring.
Qed.

(** X9. A duration of at least one microsecond is never converted to the
    empty string: one of the units from days to microseconds is positive,
    and the microseconds are always a candidate. *)
Theorem microsecond_renders (P : ratio) (c : Z) :
  ProcessTiming.SplitTimeElements_ok P = true ->
  den P <= c * 1000000 ->
  c <= intmax_max ->
  exists str,
    ProcessTiming.TimeToString P c = Some str /\ str <> ""%string.
Proof.
  intros Hok Hc Hmax.
  destruct (SplitTimeElements_ok_shape P Hok) as (Hn & k & Hk & Hd & Hlim).
  assert (Hck : k <= c) by lia.
  assert (E : ProcessTiming.SplitTimeElements P c = Some (split_closed_form k c))
    by (apply SplitTimeElements_nonneg; solve [assumption | lia]).
  unfold ProcessTiming.TimeToString. rewrite E. cbn [bind].
  eexists. split; [reflexivity |].
  pose proof (closed_form_in_bounds k c Hk ltac:(lia))
    as (Bd & Bh & Bm & Bs & Bms & Bus & Bns).
  pose proof (closed_form_ticks k c Hk) as Hticks.
  assert (Hr6 : 0 <= rest6 k c < k) by (apply Z.mod_pos_bound; lia).
  revert Bd Bh Bm Bs Bms Bus Hticks.
  generalize (split_closed_form k c). intros te Bd Bh Bm Bs Bms Bus Hticks.
  assert (Hact : activate_at P te 5 = true).
  { rewrite activate_at_existsb. cbn [rows firstn existsb u_count].
    destruct (d te >? 0) eqn:Ed; [reflexivity |].
    destruct (h te >? 0) eqn:Eh; [reflexivity |].
    destruct (m te >? 0) eqn:Em; [reflexivity |].
    destruct (s te >? 0) eqn:Es; [reflexivity |].
    destruct (ms te >? 0) eqn:Ems; [reflexivity |].
    destruct (us te >? 0) eqn:Eus; [reflexivity |].
    exfalso.
    assert (d te = 0) by lia. assert (h te = 0) by lia.
    assert (m te = 0) by lia. assert (s te = 0) by lia.
    assert (ms te = 0) by lia. assert (us te = 0) by lia.
    nia. }
  assert (Hp : printed P te 5 = true).
  { unfold printed. cbn [rows nth_error].
    rewrite (micro_candidate P te Hok), Hact. reflexivity. }
  intros Hempty.
  destruct (piece_in_output P te 5 _ eq_refl) as (pre & post & Hout).
  rewrite Hempty in Hout. symmetry in Hout.
  apply append_empty_iff in Hout as [_ Hout].
  apply append_empty_iff in Hout as [Hout _].
  apply piece_empty_iff in Hout. congruence.
Qed.

Lemma microsecond_renders_witness :
  exists str,
    ProcessTiming.TimeToString (mkRatio 1 3000000) 3 = Some str
    /\ str <> ""%string.
Proof.
  apply (microsecond_renders (mkRatio 1 3000000) 3).
  - vm_compute. reflexivity.
  - vm_compute. discriminate.
  - unfold intmax_max. lia.
Defined.

(** Below one microsecond the result can be empty although the duration is
    positive: two ticks of a third of a microsecond are 666 ns, and the
    nanoseconds are not a candidate at that resolution. *)
Example submicrosecond_renders_empty :
  ProcessTiming.SplitTimeElements (mkRatio 1 3000000) 2
  = Some (mkTimeElements 0 0 0 0 0 0 666)
  /\ ProcessTiming.TimeToString (mkRatio 1 3000000) 2 = Some ""%string.
Proof. split; vm_compute; reflexivity. Qed.

(** ** More on the comparators *)

(** X10. Where the cross products do not overflow, [ratio_less] is a
    strict order on periods, with [ratio_equal] as its equality: nothing
    is less than itself, less is never mutual, less is transitive, and of
    two periods one is less or they are equal. *)
Theorem ratio_less_strict_order (P1 P2 P3 : ratio) :
  0 < rN P1 -> 0 < rD P1 -> 0 < rN P2 -> 0 < rD P2 -> 0 < rN P3 -> 0 < rD P3 ->
  ratio_less_ok P1 P2 = true ->
  ratio_less_ok P2 P3 = true ->
  ratio_less_ok P1 P3 = true ->
  ratio_less P1 P1 = false
  /\ (ratio_less P1 P2 = true -> ratio_less P2 P1 = false)
  /\ (ratio_less P1 P2 = true -> ratio_less P2 P3 = true ->
      ratio_less P1 P3 = true)
  /\ (ratio_less P1 P2 = true \/ ratio_equal P1 P2 = true
      \/ ratio_less P2 P1 = true).
Proof.
  intros N1 D1 N2 D2 N3 D3 O12 O23 O13.
  assert (O21 : ratio_less_ok P2 P1 = true)
    by (rewrite ratio_less_ok_sym; exact O12).
  pose proof (den_pos P1 ltac:(lia)) as Hd1.
  pose proof (den_pos P2 ltac:(lia)) as Hd2.
  pose proof (den_pos P3 ltac:(lia)) as Hd3.
  split; [| split; [| split]].
  - unfold ratio_less. apply Z.ltb_irrefl.
  - rewrite (ratio_less_exact P1 P2 O12), (ratio_less_exact P2 P1 O21).
    rewrite Z.ltb_lt, Z.ltb_ge. lia.
  - rewrite (ratio_less_exact P1 P2 O12), (ratio_less_exact P2 P3 O23),
      (ratio_less_exact P1 P3 O13).
    rewrite !Z.ltb_lt. intros H12 H23.
    apply Z.mul_lt_mono_pos_r with (p := den P2); [assumption |].
    apply Z.lt_trans with (m := num P2 * den P1 * den P3).
    + replace (num P1 * den P3 * den P2) with (num P1 * den P2 * den P3) by ring.
      apply Z.mul_lt_mono_pos_r; assumption.
    + replace (num P2 * den P1 * den P3) with (num P2 * den P3 * den P1) by ring.
      replace (num P3 * den P1 * den P2) with (num P3 * den P2 * den P1) by ring.
      apply Z.mul_lt_mono_pos_r; assumption.
  - destruct (Z.lt_trichotomy (rN P1 * rD P2) (rN P2 * rD P1)) as [H | [H | H]].
    + left. apply ratio_less_iff; assumption.
    + right; left. apply ratio_equal_iff; assumption.
    + right; right. apply ratio_less_iff; assumption.
Qed.

Lemma ratio_less_strict_order_witness :
  ratio_less nano milli = true.
Proof.
  destruct (ratio_less_strict_order nano micro milli
              eq_refl eq_refl eq_refl eq_refl eq_refl eq_refl
              eq_refl eq_refl eq_refl) as (_ & _ & H & _).
  apply H; reflexivity.
Defined.

(** With an overflowing product transitivity is lost. *)
Example transitivity_lost_on_overflow :
  ratio_less (mkRatio 9223372036854775807 1) (mkRatio 1 2) = true
  /\ ratio_less (mkRatio 1 2) (mkRatio 1 1) = true
  /\ ratio_less (mkRatio 9223372036854775807 1) (mkRatio 1 1) = false.
Proof. repeat split; vm_compute; reflexivity. Qed.

(** X11. The comparators look at the value of a period, not at how it is
    written: [ratio<n*k, d*k>] compares like [ratio<n, d>]. *)
Theorem ratio_less_scaling (n e k : Z) (Q : ratio) :
  0 < n -> 0 < e -> 0 < k ->
  ratio_equal (mkRatio (n * k) (e * k)) (mkRatio n e) = true
  /\ ratio_less (mkRatio (n * k) (e * k)) Q = ratio_less (mkRatio n e) Q
  /\ ratio_less Q (mkRatio (n * k) (e * k)) = ratio_less Q (mkRatio n e)
  /\ ratio_less_equal (mkRatio (n * k) (e * k)) Q = ratio_less_equal (mkRatio n e) Q
  /\ ratio_less_equal Q (mkRatio (n * k) (e * k)) = ratio_less_equal Q (mkRatio n e).
Proof.
  intros Hn He Hk.
  assert (Hg : 0 < Z.gcd n e).
  { pose proof (Z.gcd_nonneg n e).
    assert (Z.gcd n e <> 0) by (intro E; apply Z.gcd_eq_0_r in E; lia). lia. }
  assert (En : num (mkRatio (n * k) (e * k)) = num (mkRatio n e)).
  { rewrite !num_of_pos by (cbn [rN rD]; nia). cbn [rN rD].
    rewrite Z.gcd_mul_mono_r_nonneg by lia.
    apply Z.div_mul_cancel_r; lia. }
  assert (Ed : den (mkRatio (n * k) (e * k)) = den (mkRatio n e)).
  { rewrite !den_of_pos by (cbn [rN rD]; nia). cbn [rN rD].
    rewrite Z.gcd_mul_mono_r_nonneg by lia.
    apply Z.div_mul_cancel_r; lia. }
  unfold ratio_less_equal, ratio_less, ratio_equal. rewrite En, Ed.
  rewrite !Z.eqb_refl. repeat split.
Qed.

Lemma ratio_less_scaling_witness :
  ratio_less (mkRatio 3 3000) seconds_period = ratio_less milli seconds_period.
Proof.
  apply (ratio_less_scaling 1 1000 3 seconds_period); lia.
Defined.

(** ** More on the stopwatch *)

Lemma period_ok_pos (p : ratio) :
  period_ok p = true -> rD p <> 0 /\ 0 < num p /\ 0 < den p.
Proof.
  unfold period_ok. rewrite !andb_true_iff.
  intros [[[Hnz _] _] Hnum].
  apply negb_true_iff, Z.eqb_neq in Hnz. apply Z.ltb_lt in Hnum.
  repeat split; try assumption. now apply den_pos.
Qed.

Lemma truncate_to_mono (From To : ratio) (a b : Z) :
  period_ok From = true -> period_ok To = true ->
  a <= b -> truncate_to From To a <= truncate_to From To b.
Proof.
  intros HF HT Hab.
  destruct (period_ok_pos From HF) as (_ & HFn & HFd).
  destruct (period_ok_pos To HT) as (_ & HTn & HTd).
  unfold truncate_to. apply Z.quot_le_mono.
  - apply Z.mul_pos_pos; assumption.
  - apply Z.mul_le_mono_nonneg_r; [| exact Hab].
    apply Z.lt_le_incl, Z.mul_pos_pos; assumption.
Qed.

Lemma truncate_to_nonpos (From To : ratio) (a : Z) :
  period_ok From = true -> period_ok To = true ->
  a <= 0 -> truncate_to From To a <= 0.
Proof.
  intros HF HT Ha.
  pose proof (truncate_to_mono From To a 0 HF HT Ha) as H.
  assert (Z0 : truncate_to From To 0 = 0) by reflexivity.
  lia.
Qed.

(** A cast never leaves the range of the representation. *)
Lemma duration_cast_representable (From To : ratio) (c v : Z) :
  period_ok From = true -> period_ok To = true ->
  duration_cast From To c = Some v -> intmax_min <= v <= intmax_max.
Proof.
  intros HF HT.
  destruct (period_ok_pos From HF) as (HFz & HFn & HFd).
  destruct (period_ok_pos To HT) as (HTz & HTn & HTd).
  assert (Hden : 0 < den (ratio_divide From To)).
  { apply den_pos. unfold ratio_divide; cbn [rD].
    apply Z.neq_mul_0. split; lia. }
  unfold duration_cast, checked.
  destruct (representable _) eqn:Hr; cbn [bind]; [| discriminate].
  intros E. injection E as <-.
  apply representable_iff in Hr.
  revert Hr Hden.
  generalize (c * num (ratio_divide From To)) (den (ratio_divide From To)).
  intros n e Hr He.
  assert (Hmin : intmax_min <= 0) by (unfold intmax_min; lia).
  assert (Hmax : 0 <= intmax_max) by (unfold intmax_max; lia).
  destruct (Z.le_gt_cases 0 n) as [Hpos | Hneg].
  - pose proof (Z.quot_pos n e Hpos He).
    assert (Z.quot n e <= n) by (apply Z.quot_le_upper_bound; nia).
    lia.
  - assert (E : exists n', 0 <= n' /\ n = - n') by (exists (- n); lia).
    destruct E as (n' & Hn' & ->).
    rewrite Z.quot_opp_l by lia.
    pose proof (Z.quot_pos n' e Hn' He).
    assert (Z.quot n' e <= n') by (apply Z.quot_le_upper_bound; nia).
    lia.
Qed.

Lemma ratio_divide_self (p : ratio) :
  period_ok p = true ->
  num (ratio_divide p p) = 1 /\ den (ratio_divide p p) = 1.
Proof.
  intros Hp. destruct (period_ok_pos p Hp) as (_ & Hn & Hd).
  assert (Ha : 0 < num p * den p) by (apply Z.mul_pos_pos; assumption).
  unfold ratio_divide.
  rewrite (num_of_pos (mkRatio _ _)), (den_of_pos (mkRatio _ _))
    by (cbn [rN rD]; lia).
  cbn [rN rD]. rewrite (Z.mul_comm (den p) (num p)).
  rewrite Z.gcd_diag, Z.abs_eq by lia.
  split; apply Z.div_same; lia.
Qed.

Section StopwatchMore.

Variable cp : ratio.
Variable clk : nat -> Z.

(** What [elapsed] returns, when it returns. *)
Lemma elapsed_value (P : ratio) (self : ProcessTiming) (w : nat) (v : Z) :
  period_ok cp = true -> period_ok P = true ->
  fst (elapsed cp clk P self w) = Some v ->
  v = truncate_to cp P (end_point clk self w - _startTime self)
  /\ intmax_min <= v <= intmax_max.
Proof.
  intros Hcp HP Hv.
  destruct (period_ok_pos cp Hcp) as (Hcz & Hcn & _).
  destruct (period_ok_pos P HP) as (HPz & HPn & _).
  assert (Hret : fst (elapsed cp clk P self w)
                 = (x <- time_diff (end_point clk self w) (_startTime self) ;;
                    duration_cast cp P x)).
  { unfold elapsed, end_point. destruct (_ongoing self); reflexivity. }
  rewrite Hret in Hv. unfold time_diff, checked in Hv.
  destruct (representable _); cbn [bind] in Hv; [| discriminate].
  split.
  - now apply duration_cast_truncates in Hv.
  - now apply duration_cast_representable in Hv.
Qed.

Lemma exec_no_start (c : call) (self : ProcessTiming) (w : nat) :
  is_start c = false ->
  _startTime (snd (fst (exec cp clk c self w))) = _startTime self.
Proof.
  destruct c; cbn [is_start]; try discriminate; intros _; cbn [exec].
  - reflexivity.
  - reflexivity.
  - unfold getEndTime, now. destruct (_ongoing self); reflexivity.
  - reflexivity.
  - unfold elapsed, now. destruct (_ongoing self); reflexivity.
  - unfold to_string, elapsed, now. destruct (_ongoing self); reflexivity.
Qed.

Lemma run_no_start (cs : list call) (self : ProcessTiming) (w : nat) :
  forallb (fun c => negb (is_start c)) cs = true ->
  _startTime (snd (fst (run cp clk cs self w))) = _startTime self.
Proof.
  revert self w. induction cs as [|c cs IH]; intros self w H; cbn [run].
  - reflexivity.
  - cbn [forallb] in H. apply andb_true_iff in H as [Hc Hcs].
    apply negb_true_iff in Hc.
    pose proof (exec_no_start c self w Hc) as E.
    destruct (exec cp clk c self w) as [[a self'] w']. cbn [fst snd] in E.
    specialize (IH self' w' Hcs).
    destruct (run cp clk cs self' w') as [[l self''] w'']. cbn [fst snd] in *.
    congruence.
Qed.

Lemma run_queries_self (qs : list call) (self : ProcessTiming) (w : nat) :
  forallb is_query qs = true ->
  snd (fst (run cp clk qs self w)) = self.
Proof.
  revert w. induction qs as [|c qs IH]; intros w H; cbn [run].
  - reflexivity.
  - cbn [forallb] in H. apply andb_true_iff in H as [Hc Hqs].
    destruct (exec_query cp clk c self w Hc) as [E _].
    destruct (exec cp clk c self w) as [[a self'] w']. cbn [fst snd] in E.
    subst self'. specialize (IH w' Hqs).
    destruct (run cp clk qs self w') as [[l self''] w'']. cbn [fst snd] in *.
    exact IH.
Qed.

(** X12. [getStartTime] is the reading of the last [start()]: [stop()]
    and the queries leave it alone, whatever their number and order, and
    so they leave the start of a fresh stopwatch. *)
Theorem start_time_is_last_start (cs : list call) (self : ProcessTiming) (w w' : nat) :
  forallb (fun c => negb (is_start c)) cs = true ->
  fst (getStartTime (snd (fst (run cp clk (Start :: cs) self w))) w') = clk w
  /\ fst (getStartTime
            (snd (fst (run cp clk cs (fst (construct clk w)) (snd (construct clk w)))))
            w') = clk w.
Proof.
  intros H. split.
  - cbn [run exec start now].
    pose proof (run_no_start cs (mkProcessTiming true (clk w) (clk w)) (S w) H) as E.
    destruct (run cp clk cs _ (S w)) as [[l s'] w'']. cbn [fst snd] in *.
    unfold getStartTime. cbn [fst]. exact E.
  - pose proof (run_no_start cs (fst (construct clk w)) (snd (construct clk w)) H) as E.
    unfold getStartTime. cbn [fst]. rewrite E. reflexivity.
Qed.

(** X13. [isRunning] tells which of [start()] and [stop()] was called
    last, however many queries followed. *)
Theorem running_is_last_switch (c : call) (qs : list call)
    (self : ProcessTiming) (w w' : nat) :
  is_query c = false ->
  forallb is_query qs = true ->
  fst (isRunning (snd (fst (run cp clk (c :: qs) self w))) w') = is_start c.
Proof.
  intros Hc Hqs. cbn [run].
  assert (E : _ongoing (snd (fst (exec cp clk c self w))) = is_start c).
  { destruct c; cbn [is_query] in Hc; try discriminate; reflexivity. }
  destruct (exec cp clk c self w) as [[a self'] w1]. cbn [fst snd] in E.
  pose proof (run_queries_self qs self' w1 Hqs) as E'.
  destruct (run cp clk qs self' w1) as [[l s''] w2]. cbn [fst snd] in *.
  subst s''. unfold isRunning. cbn [fst]. exact E.
Qed.

(** The instant measured to never goes back on a monotonic clock, as long
    as [start()] is not called. *)
Lemma exec_end_point (c : call) (self : ProcessTiming) (w : nat) :
  monotonic clk ->
  (forall n, (w <= n)%nat -> _endTime self <= clk n) ->
  is_start c = false ->
  end_point clk self w
  <= end_point clk (snd (fst (exec cp clk c self w))) (snd (exec cp clk c self w))
  /\ (forall n, (snd (exec cp clk c self w) <= n)%nat ->
        _endTime (snd (fst (exec cp clk c self w))) <= clk n).
Proof.
  intros Hm Hinv Hc. pose proof (monotonic_le clk Hm) as Hle.
  destruct (is_query c) eqn:Hq.
  - destruct (exec_query cp clk c self w Hq) as [E Hw].
    rewrite E. split.
    + unfold end_point. destruct (_ongoing self); [now apply Hle | lia].
    + intros n Hn. apply Hinv. lia.
  - destruct c; try discriminate. cbn. split.
    + unfold end_point. destruct (_ongoing self); [lia | apply Hinv; lia].
    + intros n Hn. apply Hle. lia.
Qed.

Lemma run_end_point (cs : list call) (self : ProcessTiming) (w : nat) :
  monotonic clk ->
  (forall n, (w <= n)%nat -> _endTime self <= clk n) ->
  forallb (fun c => negb (is_start c)) cs = true ->
  end_point clk self w
  <= end_point clk (snd (fst (run cp clk cs self w))) (snd (run cp clk cs self w)).
Proof.
  intros Hm. revert self w. induction cs as [|c cs IH]; intros self w Hinv H; cbn [run].
  - cbn. lia.
  - cbn [forallb] in H. apply andb_true_iff in H as [Hc Hcs].
    apply negb_true_iff in Hc.
    destruct (exec_end_point c self w Hm Hinv Hc) as [E1 E2].
    destruct (exec cp clk c self w) as [[a self'] w']. cbn [fst snd] in E1, E2.
    specialize (IH self' w' E2 Hcs).
    destruct (run cp clk cs self' w') as [[l self''] w'']. cbn [fst snd] in *.
    lia.
Qed.

(** X14. On a monotonic clock the elapsed time never goes down unless
    [start()] is called: after any calls of [stop()] and queries,
    [elapsed] returns at least what it returned before. *)
Theorem elapsed_never_decreases (P : ratio) (cs : list call)
    (self : ProcessTiming) (w : nat) (v1 v2 : Z) :
  monotonic clk ->
  reachable cp clk self w ->
  period_ok cp = true ->
  period_ok P = true ->
  forallb (fun c => negb (is_start c)) cs = true ->
  fst (elapsed cp clk P self w) = Some v1 ->
  fst (elapsed cp clk P (snd (fst (run cp clk cs self w)))
         (snd (run cp clk cs self w))) = Some v2 ->
  v1 <= v2.
Proof.
  intros Hm Hr Hcp HP Hcs H1 H2.
  destruct (reachable_ordered cp clk self w Hm Hr) as [_ Hinv].
  apply elapsed_value in H1 as [-> _]; try assumption.
  apply elapsed_value in H2 as [-> _]; try assumption.
  rewrite (run_no_start cs self w Hcs).
  apply truncate_to_mono; try assumption.
  pose proof (run_end_point cs self w Hm Hinv Hcs). lia.
Qed.

(** X15. On a monotonic clock [getEndTime] never returns an instant
    before [getStartTime], running or stopped. *)
Theorem end_not_before_start (self : ProcessTiming) (w : nat) :
  monotonic clk ->
  reachable cp clk self w ->
  fst (getStartTime self w) <= fst (getEndTime clk self w).
Proof.
  intros Hm Hr.
  destruct (reachable_ordered cp clk self w Hm Hr) as [Hse Hinv].
  unfold getStartTime, getEndTime, now. cbn [fst].
  destruct (_ongoing self); cbn [fst].
  - specialize (Hinv w (le_n w)). lia.
  - exact Hse.
Qed.

(** X16. No clamping: when the clock has gone back behind the start, what
    [elapsed] returns is negative or zero, and [to_string] gives the
    empty string. *)
Theorem backward_clock_renders_empty (P : ratio)
    (self : ProcessTiming) (w : nat) (v : Z) :
  period_ok cp = true ->
  ProcessTiming.SplitTimeElements_ok P = true ->
  end_point clk self w <= _startTime self ->
  fst (elapsed cp clk P self w) = Some v ->
  v <= 0 /\ fst (to_string cp clk P self w) = Some ""%string.
Proof.
  intros Hcp Hok Hback Hv.
  assert (HP : period_ok P = true).
  { unfold ProcessTiming.SplitTimeElements_ok in Hok.
    rewrite !andb_true_iff in Hok. tauto. }
  destruct (elapsed_value P self w v Hcp HP Hv) as [E Hrange].
  assert (Hneg : v <= 0).
  { rewrite E. apply truncate_to_nonpos; try assumption. lia. }
  split; [exact Hneg |].
  unfold to_string. destruct (elapsed cp clk P self w) as [r w'].
  cbn [fst] in *. subst r. cbn [bind].
  destruct (SplitTimeElements_accepted_any P v Hok Hrange)
    as (k & Hk & _ & _ & Es).
  unfold ProcessTiming.TimeToString. rewrite Es. cbn [bind]. f_equal.
  apply negative_bounds_render_empty.
  now apply truncated_form_negative_bounds.
Qed.

End StopwatchMore.

(** X17. At the resolution of the clock itself [to_string] cannot fail.
    For a stopwatch brought about by its constructor and calls, on a
    monotonic clock, [elapsed] returns the span as it is and [to_string]
    returns a string, provided the span is an [intmax_t]. *)
Theorem to_string_defined (P : ratio) (clk : nat -> Z)
    (self : ProcessTiming) (w : nat) :
  monotonic clk ->
  reachable P clk self w ->
  ProcessTiming.SplitTimeElements_ok P = true ->
  end_point clk self w - _startTime self <= intmax_max ->
  fst (elapsed P clk P self w) = Some (end_point clk self w - _startTime self)
  /\ exists str, fst (to_string P clk P self w) = Some str.
Proof.
  intros Hm Hr Hok Hfit.
  assert (HP : period_ok P = true).
  { unfold ProcessTiming.SplitTimeElements_ok in Hok.
    rewrite !andb_true_iff in Hok. tauto. }
  destruct (reachable_ordered P clk self w Hm Hr) as [Hse Hinv].
  assert (Hspan : 0 <= end_point clk self w - _startTime self).
  { unfold end_point. destruct (_ongoing self).
    - specialize (Hinv w (le_n w)). lia.
    - lia. }
  destruct (ratio_divide_self P HP) as [Hn Hd].
  assert (Hmin : intmax_min <= 0) by (unfold intmax_min; lia).
  assert (He : fst (elapsed P clk P self w)
               = Some (end_point clk self w - _startTime self)).
  { assert (Hret : fst (elapsed P clk P self w)
                   = (x <- time_diff (end_point clk self w) (_startTime self) ;;
                      duration_cast P P x)).
    { unfold elapsed, end_point. destruct (_ongoing self); reflexivity. }
    rewrite Hret. unfold time_diff, duration_cast. rewrite Hn, Hd.
    rewrite checked_in_range by lia. cbn [bind].
    rewrite Z.mul_1_r, checked_in_range by lia. cbn [bind].
    now rewrite Z.quot_1_r. }
  split; [exact He |].
  unfold to_string. destruct (elapsed P clk P self w) as [r w'].
  cbn [fst] in *. subst r. cbn [bind].
  destruct (SplitTimeElements_accepted P _ Hok (conj Hspan Hfit))
    as (k & _ & _ & _ & Es).
  unfold ProcessTiming.TimeToString. rewrite Es. cbn [bind]. eauto.
Qed.

Lemma start_time_is_last_start_witness :
  let clk := fun n => 1000 + 1500000 * Z.of_nat n in
  let self := mkProcessTiming false 7 9 in
  fst (getStartTime
         (snd (fst (run nano clk [Start; Stop; GetEndTime; Elapsed micro; Stop] self 4)))
         9) = 6001000.
Proof.
  intros clk self.
  apply (start_time_is_last_start nano clk
           [Stop; GetEndTime; Elapsed micro; Stop] self 4 9).
  reflexivity.
Defined.

Lemma running_is_last_switch_witness :
  let clk := fun n => 1000 + 1500000 * Z.of_nat n in
  let running := fst (construct clk 0) in
  fst (isRunning
         (snd (fst (run nano clk [Stop; Elapsed nano; GetEndTime] running 1))) 1)
  = false.
Proof.
  intros clk running.
  apply (running_is_last_switch nano clk Stop [Elapsed nano; GetEndTime] running 1 1);
    reflexivity.
Defined.

Lemma elapsed_never_decreases_witness :
  let clk := fun n => 1000 + 1500000 * Z.of_nat n in
  let running := fst (construct clk 0) in
  let later := run nano clk [GetEndTime; Stop] running 1 in
  fst (elapsed nano clk micro running 1) = Some 1500
  /\ fst (elapsed nano clk micro (snd (fst later)) (snd later)) = Some 3000
  /\ 1500 <= 3000.
Proof.
  intros clk running later.
  split; [reflexivity |]. split; [reflexivity |].
  apply (elapsed_never_decreases nano clk micro [GetEndTime; Stop] running 1 1500 3000).
  - intros n. unfold clk. lia.
  - apply (reach_construct nano clk 0).
  - reflexivity.
  - reflexivity.
  - reflexivity.
  - reflexivity.
  - reflexivity.
Defined.

Lemma end_not_before_start_witness :
  let clk := fun n => 1000 + 1500000 * Z.of_nat n in
  let running := fst (construct clk 0) in
  fst (getStartTime running 1) <= fst (getEndTime clk running 1).
Proof.
  intros clk running.
  apply (end_not_before_start nano clk running 1).
  - intros n. unfold clk. lia.
  - apply (reach_construct nano clk 0).
Defined.

Lemma backward_clock_renders_empty_witness :
  let clk := fun n => 5000 - 1000 * Z.of_nat n in
  let running := fst (construct clk 0) in
  fst (elapsed nano clk nano running 1) = Some (-1000)
  /\ fst (to_string nano clk nano running 1) = Some ""%string.
Proof.
  intros clk running.
  split; [reflexivity |].
  apply (backward_clock_renders_empty nano clk nano running 1 (-1000)).
  - reflexivity.
  - reflexivity.
  - unfold end_point, running, clk. cbn. lia.
  - reflexivity.
Defined.

Lemma to_string_defined_witness :
  let clk := fun n => 1000 + 1500000 * Z.of_nat n in
  let running := fst (construct clk 0) in
  exists str, fst (to_string nano clk nano running 1) = Some str.
Proof.
  intros clk running.
  apply (to_string_defined nano clk running 1).
  - intros n. unfold clk. lia.
  - apply (reach_construct nano clk 0).
  - reflexivity.
  - unfold end_point, running, clk, intmax_max. cbn. lia.
Defined.
